(** * version.ts : the version banner of a Deno command line program

    A shallow embedding of [version.ts] (wiremoons/version): the string
    helpers [isString] and [toTitleCaseFirst], the modification-time lookup
    [getFileModTime] and the banner builder [version], in the current
    revision of the file (the one that rejects remote paths).

    - JavaScript strings are sequences of UTF-16 code units: [jsstring] is
      [list codeunit], and a literal is written [js "..."].
    - An [async] function is a computation that performs host calls and
      settles: it yields the trace of the host calls it made, in order, and an
      [Outcome] (resolved with a value, or rejected with a thrown value).
    - The Deno runtime (its globals and the two imported path helpers) is the
      record [Host]. *)

From Stdlib Require Import List Bool Arith ZArith NArith Lia.
From Stdlib Require Import Ascii String DecimalString.
Import ListNotations.


(* ------------------------------------------------------------------ *)
(** ** JavaScript strings *)

Definition codeunit := N.
Definition jsstring := list codeunit.

(** A string literal of the source, as code units. *)
Definition js (s : string) : jsstring :=
  map N_of_ascii (list_ascii_of_string s).

(** The line break inside a template literal. *)
Definition nl : jsstring := [10%N].

Fixpoint jsstring_eqb (a b : jsstring) : bool :=
  match a, b with
  | [], [] => true
  | x :: a', y :: b' => N.eqb x y && jsstring_eqb a' b'
  | _, _ => false
  end.

(** [String.prototype.startsWith(search)] (position 0). *)
Fixpoint startsWith (s search : jsstring) {struct search} : bool :=
  match search, s with
  | [], _ => true
  | _ :: _, [] => false
  | x :: search', y :: s' => N.eqb x y && startsWith s' search'
  end.

(** [String.prototype.includes(search)]. *)
Fixpoint includes (s search : jsstring) : bool :=
  startsWith s search ||
  match s with
  | [] => false
  | _ :: s' => includes s' search
  end.

(** [String.prototype.charAt(pos)]: the one-unit string at [pos], or the
    empty string when [pos] is out of range. *)
Definition charAt (s : jsstring) (pos : nat) : jsstring :=
  match nth_error s pos with
  | Some c => [c]
  | None => []
  end.

(** [String.prototype.substring(start)] with a single argument. *)
Definition substring (s : jsstring) (start : nat) : jsstring := skipn start s.

(** Joining lines with a separator ([Array.prototype.join]). *)
Fixpoint join (sep : jsstring) (parts : list jsstring) : jsstring :=
  match parts with
  | [] => []
  | [p] => p
  | p :: rest => p ++ sep ++ join sep rest
  end.

(** Decimal rendering of a non-negative integer, as a template literal
    renders an integral number. *)
Definition decimal (n : N) : jsstring :=
  js (NilZero.string_of_uint (N.to_uint n)).

(* ------------------------------------------------------------------ *)
(** ** JavaScript values *)

Inductive JSValue : Type :=
| VUndefined
| VNull
| VBoolean (b : bool)
| VNumber (n : Z)                (* integral numbers are all the program needs *)
| VString (s : jsstring)
| VError (message : jsstring)    (* an instance of [Error] (or a subclass) *)
| VObject (id : N).              (* any other object *)

(** The [typeof] operator. *)
Definition typeof (v : JSValue) : jsstring :=
  match v with
  | VUndefined => js "undefined"
  | VNull => js "object"
  | VBoolean _ => js "boolean"
  | VNumber _ => js "number"
  | VString _ => js "string"
  | VError _ => js "object"
  | VObject _ => js "object"
  end.

(** [err instanceof Error]. *)
Definition instanceofError (v : JSValue) : bool :=
  match v with
  | VError _ => true
  | _ => false
  end.

(** Type guard for string: [typeof arg === "string"]. *)
Definition isString (arg : JSValue) : bool :=
  jsstring_eqb (typeof arg) (js "string").

(* ------------------------------------------------------------------ *)
(** ** Dates: [Date.prototype.toUTCString] (ECMA-262, Date objects)

    A [Date] is its time value: milliseconds since 1970-01-01T00:00:00Z.
    The day and calendar arithmetic is the one ECMA-262 gives; [Z.div] and
    [Z.modulo] round towards minus infinity, as [floor] and [modulo] there. *)

Definition Date := Z.

Module DateTime.
Local Open Scope Z_scope.

Definition msPerDay : Z := 86400000.
Definition msPerHour : Z := 3600000.
Definition msPerMinute : Z := 60000.
Definition msPerSecond : Z := 1000.

Definition Day (t : Z) : Z := t / msPerDay.

Definition DayFromYear (y : Z) : Z :=
  365 * (y - 1970) + (y - 1969) / 4 - (y - 1901) / 100 + (y - 1601) / 400.

Definition DaysInYear (y : Z) : Z :=
  if negb (y mod 4 =? 0) then 365
  else if negb (y mod 100 =? 0) then 366
  else if negb (y mod 400 =? 0) then 365
  else 366.

(** The largest [y] with [DayFromYear y <= Day t]: an estimate from the mean
    length of a Gregorian year, corrected by one year either way
    ([YearFromTime_spec] below shows that this is the year ECMA-262 defines). *)
Definition YearFromTime (t : Z) : Z :=
  let d := Day t in
  let y := 1970 + (400 * d) / 146097 in
  if d <? DayFromYear y then y - 1
  else if DayFromYear (y + 1) <=? d then y + 1
  else y.

Definition InLeapYear (t : Z) : Z :=
  if DaysInYear (YearFromTime t) =? 366 then 1 else 0.

Definition DayWithinYear (t : Z) : Z := Day t - DayFromYear (YearFromTime t).

Definition MonthFromTime (t : Z) : Z :=
  let d := DayWithinYear t in
  let leap := InLeapYear t in
  if d <? 31 then 0
  else if d <? 59 + leap then 1
  else if d <? 90 + leap then 2
  else if d <? 120 + leap then 3
  else if d <? 151 + leap then 4
  else if d <? 181 + leap then 5
  else if d <? 212 + leap then 6
  else if d <? 243 + leap then 7
  else if d <? 273 + leap then 8
  else if d <? 304 + leap then 9
  else if d <? 334 + leap then 10
  else 11.

Definition DateFromTime (t : Z) : Z :=
  let d := DayWithinYear t in
  let leap := InLeapYear t in
  match MonthFromTime t with
  | 0 => d + 1
  | 1 => d - 30
  | 2 => d - 58 - leap
  | 3 => d - 89 - leap
  | 4 => d - 119 - leap
  | 5 => d - 150 - leap
  | 6 => d - 180 - leap
  | 7 => d - 211 - leap
  | 8 => d - 242 - leap
  | 9 => d - 272 - leap
  | 10 => d - 303 - leap
  | _ => d - 333 - leap
  end.

Definition WeekDay (t : Z) : Z := (Day t + 4) mod 7.
Definition HourFromTime (t : Z) : Z := (t / msPerHour) mod 24.
Definition MinFromTime (t : Z) : Z := (t / msPerMinute) mod 60.
Definition SecFromTime (t : Z) : Z := (t / msPerSecond) mod 60.

Definition weekdayName (w : Z) : jsstring :=
  match w with
  | 0 => js "Sun" | 1 => js "Mon" | 2 => js "Tue" | 3 => js "Wed"
  | 4 => js "Thu" | 5 => js "Fri" | _ => js "Sat"
  end.

Definition monthName (m : Z) : jsstring :=
  match m with
  | 0 => js "Jan" | 1 => js "Feb" | 2 => js "Mar" | 3 => js "Apr"
  | 4 => js "May" | 5 => js "Jun" | 6 => js "Jul" | 7 => js "Aug"
  | 8 => js "Sep" | 9 => js "Oct" | 10 => js "Nov" | _ => js "Dec"
  end.

(** [ToZeroPaddedDecimalString(n, minLength)]. *)
Definition ToZeroPaddedDecimalString (n : Z) (minLength : nat) : jsstring :=
  let S := decimal (Z.to_N n) in
  repeat 48%N (minLength - List.length S) ++ S.

(** [TimeString(tv)]: hour, minute and second, then the code units of " GMT". *)
Definition TimeString (tv : Z) : jsstring :=
  ToZeroPaddedDecimalString (HourFromTime tv) 2 ++ js ":" ++
  ToZeroPaddedDecimalString (MinFromTime tv) 2 ++ js ":" ++
  ToZeroPaddedDecimalString (SecFromTime tv) 2 ++ js " GMT".

(** [Date.prototype.toUTCString()] of a date with a finite time value. *)
Definition toUTCString (tv : Date) : jsstring :=
  let weekday := weekdayName (WeekDay tv) in
  let month := monthName (MonthFromTime tv) in
  let day := ToZeroPaddedDecimalString (DateFromTime tv) 2 in
  let yv := YearFromTime tv in
  let yearSign := if 0 <=? yv then [] else js "-" in
  let paddedYear := ToZeroPaddedDecimalString (Z.abs yv) 4 in
  weekday ++ js ", " ++ day ++ js " " ++ month ++ js " " ++
  yearSign ++ paddedYear ++ js " " ++ TimeString tv.

End DateTime.

(* ------------------------------------------------------------------ *)
(** ** The host runtime *)

(** The part of [Deno.FileInfo] the program reads. *)
Record FileInfo : Type := mkFileInfo {
  mtime : option Date            (* [Date | null] *)
}.

(** The Deno globals and imported helpers the module calls.  [lstat] and
    [fromFileUrl] either deliver a value ([inl]) or throw one ([inr]). *)
Record Host : Type := mkHost {
  mainModule : jsstring;                          (* Deno.mainModule *)
  deno_version : jsstring;                        (* Deno.version.deno *)
  build_os : jsstring;                            (* Deno.build.os *)
  build_arch : jsstring;                          (* Deno.build.arch *)
  hardwareConcurrency : N;                        (* navigator.hardwareConcurrency *)
  lstat : jsstring -> FileInfo + JSValue;         (* Deno.lstat *)
  fromFileUrl : jsstring -> jsstring + JSValue;   (* @std/path fromFileUrl *)
  basename : jsstring -> jsstring                 (* @std/path basename *)
}.

(* ------------------------------------------------------------------ *)
(** ** Asynchronous computations *)

(** A call that leaves the module. *)
Inductive HostCall : Type :=
| CallFromFileUrl (url : jsstring)
| CallLstat (path : jsstring).

Inductive Outcome (A : Type) : Type :=
| Resolved (a : A)
| Rejected (reason : JSValue).

Arguments Resolved {A} a.
Arguments Rejected {A} reason.

(** The host calls made, oldest first, and how the promise settled. *)
Definition Async (A : Type) : Type := (list HostCall * Outcome A)%type.

Definition trace {A} (m : Async A) : list HostCall := fst m.
Definition outcome {A} (m : Async A) : Outcome A := snd m.

Definition ret {A} (a : A) : Async A := ([], Resolved a).

(** [return Promise.reject(reason)] / [throw reason]. *)
Definition reject {A} (reason : JSValue) : Async A := ([], Rejected reason).

(** [const x = await m; k x]. *)
Definition bind {A B} (m : Async A) (k : A -> Async B) : Async B :=
  match m with
  | (calls, Resolved a) => let (calls', r) := k a in (calls ++ calls', r)
  | (calls, Rejected reason) => (calls, Rejected reason)
  end.

(** [try { await m } catch (err) { handler err }]. *)
Definition tryCatch {A} (m : Async A) (handler : JSValue -> Async A) : Async A :=
  match m with
  | (calls, Resolved a) => (calls, Resolved a)
  | (calls, Rejected reason) =>
      let (calls', r) := handler reason in (calls ++ calls', r)
  end.

Notation "x <- m ;; k" := (bind m (fun x => k))
  (at level 61, m at next level, right associativity).

Definition settle {A} (call : HostCall) (r : A + JSValue) : Async A :=
  ([call], match r with inl a => Resolved a | inr reason => Rejected reason end).

Definition Deno_lstat (h : Host) (path : jsstring) : Async FileInfo :=
  settle (CallLstat path) (lstat h path).

Definition path_fromFileUrl (h : Host) (url : jsstring) : Async jsstring :=
  settle (CallFromFileUrl url) (fromFileUrl h url).

(* ------------------------------------------------------------------ *)
(** ** UTILITY FUNCTIONS *)

(** Obtain [filePath] modification date and time. *)
Definition getFileModTime (h : Host) (filePath : jsstring) : Async jsstring :=
  if (List.length filePath <? 1)%nat then
    reject (VError (js "UNKNOWN as no file path available."))
  else if startsWith filePath (js "https://") || startsWith filePath (js "http://") then
    reject (VError (js "UNKNOWN due to remote execution."))
  else
    filePath <- (if startsWith filePath (js "file:")
                 then path_fromFileUrl h filePath
                 else ret filePath) ;;
    tryCatch
      (fileInfo <- Deno_lstat h filePath ;;
       ret (match mtime fileInfo with
            | Some d => DateTime.toUTCString d
            | None => js "UNKNOWN no file modification time available."
            end))
      (fun _ =>
         reject (VError (js "UNKNOWN Deno.lstat failed for " ++ filePath))).

(** The options of [version()]: each field is the string the caller supplied,
    or [None] when reading the property gives [undefined]. *)
Module VersionOptions.
Record t : Type := mk {
  version : option jsstring;
  copyrightName : option jsstring;
  licenseUrl : option jsstring;
  crYear : option jsstring
}.
(** The object literal [{}]. *)
Definition empty : t := mk None None None None.
End VersionOptions.

(** [verData ?? {}]. *)
Definition orEmpty (verData : option VersionOptions.t) : VersionOptions.t :=
  match verData with
  | Some o => o
  | None => VersionOptions.empty
  end.

(** A destructuring default: [{ field = dflt } = obj]. *)
Definition withDefault (field : option jsstring) (dflt : jsstring) : jsstring :=
  match field with
  | Some s => s
  | None => dflt
  end.

(** [ToString], as a template literal applies it to a substitution. *)
Definition ToString (v : JSValue) : jsstring :=
  match v with
  | VUndefined => js "undefined"
  | VNull => js "null"
  | VBoolean true => js "true"
  | VBoolean false => js "false"
  | VNumber (Zneg p) => js "-" ++ decimal (Npos p)
  | VNumber n => decimal (Z.to_N n)
  | VString s => s
  | VError [] => js "Error"
  | VError message => js "Error: " ++ message
  | VObject _ => js "[object Object]"
  end.

Section Engine.

(** The upper-case mapping of a single code unit outside ASCII, from the
    Unicode tables of the JavaScript engine (one code unit may map to several,
    as U+00DF does). *)
Variable upperNonAscii : codeunit -> jsstring.

(** [String.prototype.toUpperCase] on code units; exact on the one-unit
    strings [charAt] returns, which is where the program uses it. *)
Definition toUpperCase (s : jsstring) : jsstring :=
  flat_map (fun c : codeunit =>
              if (97 <=? c)%N && (c <=? 122)%N then [(c - 32)%N]
              else if (c <? 128)%N then [c]
              else upperNonAscii c) s.

(** Capitalise the first character of a string. *)
Definition toTitleCaseFirst (str : JSValue) : JSValue :=
  match isString str, str with
  | true, VString s =>
      if (List.length s =? 0)%nat then str
      else VString (toUpperCase (charAt s 0) ++ substring s 1)
  | _, _ => str
  end.

(* ------------------------------------------------------------------ *)
(** ** APPLICATION FUNCTIONS *)

(** The template literal [version()] returns. *)
Definition banner (h : Host) (version fileModTime crYear copyrightName licenseUrl : jsstring)
  : jsstring :=
  nl ++ js " Application '" ++ basename h (mainModule h) ++ js "' is version '" ++
  version ++ js "'." ++
  nl ++ js " Last modified on: " ++ fileModTime ++
  nl ++ js " Running Deno version '" ++ deno_version h ++ js "' on '" ++
  ToString (toTitleCaseFirst (VString (build_os h))) ++
  js " [" ++ build_arch h ++ js " with " ++ decimal (hardwareConcurrency h) ++
  js " CPU cores]'." ++
  nl ++ js " Copyright (c) " ++ crYear ++ js " " ++ copyrightName ++ js "." ++
  nl ++
  nl ++ js " For licenses and further information visit:" ++
  nl ++ js "   - " ++ licenseUrl ++
  nl ++ js "   - https://deno.land/" ++
  nl ++ js "   ".

(** The [catch (err)] clause of [version()]. *)
Definition catchModTime (err : JSValue) : jsstring :=
  match instanceofError err, err with
  | true, VError message => message
  | _, _ => js "UNKNOWN unspecified error."
  end.

(** Display version information for the [Deno.mainModule] program. *)
Definition version (h : Host) (verData : option VersionOptions.t) : Async jsstring :=
  let o := orEmpty verData in
  let version := withDefault (VersionOptions.version o) (js "0.0.1 [DEFAULT]") in
  let copyrightName :=
    withDefault (VersionOptions.copyrightName o)
                (js "Deno Dinosaur <deno@deno.land> [DEFAULT]") in
  let licenseUrl :=
    withDefault (VersionOptions.licenseUrl o)
                (js "https://github.com/<username_here>/ [DEFAULT]") in
  let crYear := withDefault (VersionOptions.crYear o) (js "2021 [DEFAULT]") in
  fileModTime <- tryCatch (getFileModTime h (mainModule h))
                          (fun err => ret (catchModTime err)) ;;
  ret (banner h version fileModTime crYear copyrightName licenseUrl).

End Engine.

(* ------------------------------------------------------------------ *)
(** ** The banner as the documentation lays it out *)

(** The ten lines of the banner: an empty first line, the application line,
    the modification line, the runtime line, the copyright line, a blank line,
    the heading of the final block, the two URL lines, and a last line of
    three spaces. *)
Definition banner_lines
  (filename version fileModTime runtimeVersion os arch cores
   crYear copyrightName licenseUrl : jsstring) : list jsstring :=
  [ [];
    js " Application '" ++ filename ++ js "' is version '" ++ version ++ js "'.";
    js " Last modified on: " ++ fileModTime;
    js " Running Deno version '" ++ runtimeVersion ++ js "' on '" ++ os ++
      js " [" ++ arch ++ js " with " ++ cores ++ js " CPU cores]'.";
    js " Copyright (c) " ++ crYear ++ js " " ++ copyrightName ++ js ".";
    [];
    js " For licenses and further information visit:";
    js "   - " ++ licenseUrl;
    js "   - https://deno.land/";
    js "   " ].

(** What ends up on the modification line: the resolved text of the lookup,
    or what the [catch] clause makes of the rejection. *)
Definition modTimeText (h : Host) : jsstring :=
  match outcome (getFileModTime h (mainModule h)) with
  | Resolved s => s
  | Rejected err => catchModTime err
  end.

(** The string [version_test.ts] expects of [version()] on an x86_64 Linux
    machine ('version()' application test : default). *)
Definition expected_default_x86_64
  (testModTime denoVer : jsstring) (denoCpuCores : N) : jsstring :=
  nl ++ js " Application 'version_test.ts' is version '0.0.1 [DEFAULT]'." ++
  nl ++ js " Last modified on: " ++ testModTime ++
  nl ++ js " Running Deno version '" ++ denoVer ++ js "' on 'Linux [x86_64 with " ++
  decimal denoCpuCores ++ js " CPU cores]'." ++
  nl ++ js " Copyright (c) 2021 [DEFAULT] Deno Dinosaur <deno@deno.land> [DEFAULT]." ++
  nl ++
  nl ++ js " For licenses and further information visit:" ++
  nl ++ js "   - https://github.com/<username_here>/ [DEFAULT]" ++
  nl ++ js "   - https://deno.land/" ++
  nl ++ js "   ".

(** The same on an aarch64 macOS machine. *)
Definition expected_default_aarch64
  (testModTime denoVer : jsstring) (denoCpuCores : N) : jsstring :=
  nl ++ js " Application 'version_test.ts' is version '0.0.1 [DEFAULT]'." ++
  nl ++ js " Last modified on: " ++ testModTime ++
  nl ++ js " Running Deno version '" ++ denoVer ++ js "' on 'Darwin [aarch64 with " ++
  decimal denoCpuCores ++ js " CPU cores]'." ++
  nl ++ js " Copyright (c) 2021 [DEFAULT] Deno Dinosaur <deno@deno.land> [DEFAULT]." ++
  nl ++
  nl ++ js " For licenses and further information visit:" ++
  nl ++ js "   - https://github.com/<username_here>/ [DEFAULT]" ++
  nl ++ js "   - https://deno.land/" ++
  nl ++ js "   ".

(** The options of the customised call in [version.ts]. *)
Definition versionOptions : VersionOptions.t :=
  VersionOptions.mk (Some (js "1.0.6"))
                    (Some (js "John Doe <example.com>"))
                    (Some (js "https://github.com/example/my_application/"))
                    (Some (js "2022")).

(* ------------------------------------------------------------------ *)
(** ** The shape of an RFC 1123 date: [Www, dd Mmm yyyy hh:mm:ss GMT] *)

Definition isDigit (c : codeunit) : bool := (48 <=? c)%N && (c <=? 57)%N.

(** A string of [len] decimal digits. *)
Definition digitString (len : nat) (s : jsstring) : bool :=
  (List.length s =? len)%nat && forallb isDigit s.

Definition weekdayNames : list jsstring :=
  map js ["Sun"; "Mon"; "Tue"; "Wed"; "Thu"; "Fri"; "Sat"]%string.

Definition monthNames : list jsstring :=
  map js ["Jan"; "Feb"; "Mar"; "Apr"; "May"; "Jun";
          "Jul"; "Aug"; "Sep"; "Oct"; "Nov"; "Dec"]%string.

Definition isRFC1123Date (s : jsstring) : bool :=
  let part (i n : nat) := firstn n (skipn i s) in
  (List.length s =? 29)%nat &&
  existsb (jsstring_eqb (part 0 3)%nat) weekdayNames &&
  jsstring_eqb (part 3 2)%nat (js ", ") &&
  forallb isDigit (part 5 2)%nat &&
  jsstring_eqb (part 7 1)%nat (js " ") &&
  existsb (jsstring_eqb (part 8 3)%nat) monthNames &&
  jsstring_eqb (part 11 1)%nat (js " ") &&
  forallb isDigit (part 12 4)%nat &&
  jsstring_eqb (part 16 1)%nat (js " ") &&
  forallb isDigit (part 17 2)%nat &&
  jsstring_eqb (part 19 1)%nat (js ":") &&
  forallb isDigit (part 20 2)%nat &&
  jsstring_eqb (part 22 1)%nat (js ":") &&
  forallb isDigit (part 23 2)%nat &&
  jsstring_eqb (part 25 4)%nat (js " GMT").

(* ------------------------------------------------------------------ *)
(** ** Sample hosts *)

Module Sample.

(** The final segment of a POSIX path. *)
Definition posix_basename (path : jsstring) : jsstring :=
  fold_left (fun acc c => if (c =? 47)%N then [] else acc ++ [c]) path [].

(** [fromFileUrl] on the URLs of the samples: [file://] followed by an
    absolute path without escapes. *)
Definition posix_fromFileUrl (url : jsstring) : jsstring + JSValue :=
  if startsWith url (js "file://") then inl (skipn 7 url)
  else inr (VError (js "URL must be a file URL")).

(** A file system as a table from paths to file information. *)
Fixpoint lookupFile (fs : list (jsstring * FileInfo)) (path : jsstring)
  : FileInfo + JSValue :=
  match fs with
  | [] => inr (VError (js "No such file or directory (os error 2)"))
  | (p, info) :: fs' => if jsstring_eqb p path then inl info else lookupFile fs' path
  end.

Definition files : list (jsstring * FileInfo) :=
  [ (js "/home/runner/version/version_test.ts", mkFileInfo (Some 1756127897000%Z));
    (js "/home/runner/version/version.ts", mkFileInfo (Some 1756386000000%Z));
    (js "/srv/app/main.ts", mkFileInfo None) ].

(** A GitHub runner: the test file is the main module. *)
Definition linuxHost : Host :=
  mkHost (js "file:///home/runner/version/version_test.ts")
         (js "2.4.5") (js "linux") (js "x86_64") 4
         (lookupFile files) posix_fromFileUrl posix_basename.

(** A main module whose file status carries no modification time. *)
Definition noMtimeHost : Host :=
  mkHost (js "/srv/app/main.ts")
         (js "2.4.5") (js "linux") (js "x86_64") 4
         (lookupFile files) posix_fromFileUrl posix_basename.

(** A program run from a remote URL. *)
Definition remoteHost : Host :=
  mkHost (js "https://jsr.io/@wiremoons/version/1.1.0/version.ts")
         (js "2.4.5") (js "darwin") (js "aarch64") 14
         (lookupFile files) posix_fromFileUrl posix_basename.

(** A main module that is not on disk. *)
Definition missingHost : Host :=
  mkHost (js "/tmp/gone.ts")
         (js "2.4.5") (js "darwin") (js "aarch64") 14
         (lookupFile files) posix_fromFileUrl posix_basename.

(** A host whose URL conversion throws a value that is not an [Error]. *)
Definition oddHost : Host :=
  mkHost (js "file:///home/runner/version/version_test.ts")
         (js "2.4.5") (js "linux") (js "x86_64") 4
         (lookupFile files) (fun _ => inr (VString (js "not a file URL")))
         posix_basename.

(** An engine table that leaves code units outside ASCII as they are. *)
Definition asciiOnly (c : codeunit) : jsstring := [c].

End Sample.

(** The banner of a host, for given option values and modification text. *)
Definition template (upperNonAscii : codeunit -> jsstring) (h : Host)
  (version fileModTime crYear copyrightName licenseUrl : jsstring) : jsstring :=
  join nl
    (banner_lines (basename h (mainModule h)) version fileModTime
                  (deno_version h)
                  (ToString (toTitleCaseFirst upperNonAscii (VString (build_os h))))
                  (build_arch h) (decimal (hardwareConcurrency h))
                  crYear copyrightName licenseUrl).

(** A path [getFileModTime] treats as local: not empty and without the
    [http://] or [https://] prefix. *)
Definition isLocal (filePath : jsstring) : bool :=
  negb (List.length filePath <? 1)%nat &&
  negb (startsWith filePath (js "https://") || startsWith filePath (js "http://")).

(** A plain file system path: local and not a [file:] URL. *)
Definition isPlainPath (filePath : jsstring) : bool :=
  isLocal filePath && negb (startsWith filePath (js "file:")).

(** [q] is the path the status lookup of [getFileModTime h p] is made on. *)
Definition lookupPath (h : Host) (p q : jsstring) : Prop :=
  if startsWith p (js "file:") then fromFileUrl h p = inl q else q = p.

(* ------------------------------------------------------------------ *)
(** ** Console output beside host calls *)

(** What a run leaves behind: the lines given to the console and the calls
    that leave the module. *)
Inductive Effect : Type :=
| ConsoleLog (text : jsstring)      (* console.log(text) *)
| ConsoleDebug (text : jsstring)    (* console.debug(text) *)
| Call (c : HostCall).

(** Asynchronous code that also writes to the console. *)
Module Eff.

Definition t (A : Type) : Type := (list Effect * Outcome A)%type.

Definition effects {A} (m : t A) : list Effect := fst m.
Definition result {A} (m : t A) : Outcome A := snd m.

Definition ret {A} (a : A) : t A := ([], Resolved a).
Definition reject {A} (reason : JSValue) : t A := ([], Rejected reason).

Definition bind {A B} (m : t A) (k : A -> t B) : t B :=
  match m with
  | (done, Resolved a) => let (done', r) := k a in (done ++ done', r)
  | (done, Rejected reason) => (done, Rejected reason)
  end.

Definition tryCatch {A} (m : t A) (handler : JSValue -> t A) : t A :=
  match m with
  | (done, Resolved a) => (done, Resolved a)
  | (done, Rejected reason) =>
      let (done', r) := handler reason in (done ++ done', r)
  end.

(** Awaiting a function of the module that makes host calls only. *)
Definition lift {A} (m : Async A) : t A := (map Call (trace m), outcome m).

Definition consoleLog (text : jsstring) : t unit := ([ConsoleLog text], Resolved tt).
Definition consoleDebug (text : jsstring) : t unit := ([ConsoleDebug text], Resolved tt).

End Eff.

Notation "x <~ m ;; k" := (Eff.bind m (fun x => k))
  (at level 61, m at next level, right associativity).

(* ------------------------------------------------------------------ *)
(** ** MAIN - used for testing only *)

(** The block at the end of [version.ts]; [import_meta_main] is
    [import.meta.main]. *)
Definition main (upperNonAscii : codeunit -> jsstring) (h : Host)
  (import_meta_main : bool) : Eff.t unit :=
  if import_meta_main then
    versionData <~ Eff.lift (version upperNonAscii h None) ;;
    _ <~ Eff.consoleLog (nl ++ js "DEFAULT OUTPUT:") ;;
    _ <~ Eff.consoleLog versionData ;;
    _ <~ Eff.consoleLog (js "CUSTOMISED OUTPUT:") ;;
    versionData2 <~ Eff.lift (version upperNonAscii h (Some versionOptions)) ;;
    Eff.consoleLog versionData2
  else Eff.ret tt.

(* ------------------------------------------------------------------ *)
(** ** The revision of [version.ts] before the remote handling

    The earlier text of the file: [getFileModTime] has no remote check, logs
    the path it looks up, answers only for regular files and may resolve with
    [undefined]; [version()] awaits it inside the template, without [try]. *)

Module Previous.

(** The host, and for each path whether its status is that of a regular
    file ([fileInfo.isFile]). *)
Record Runtime : Type := mkRuntime {
  host : Host;
  isFile : jsstring -> bool
}.

(** Obtain [filePath] modification date and time; [None] is [undefined]. *)
Definition getFileModTime (r : Runtime) (filePath : jsstring)
  : Eff.t (option jsstring) :=
  if (List.length filePath <? 1)%nat then
    Eff.reject
      (VError (js "Zero length file name provided to function 'getFileModTime'"))
  else
    filePath <~ (if startsWith filePath (js "file:")
                 then Eff.lift (path_fromFileUrl (host r) filePath)
                 else Eff.ret filePath) ;;
    _ <~ Eff.consoleDebug
           (js "DEBUG: final path for 'getFileModTime()' is: " ++ filePath) ;;
    Eff.tryCatch
      (fileInfo <~ Eff.lift (Deno_lstat (host r) filePath) ;;
       if isFile r filePath then
         Eff.ret (match mtime fileInfo with
                  | Some result => Some (DateTime.toUTCString result)
                  | None => None
                  end)
       else Eff.ret None)
      (fun _ =>
         Eff.reject
           (VError (js "Unable to 'Deno.lstat' file in function 'getFileModTime'"))).

(** [value ?? "UNKNOWN"]. *)
Definition orUnknown (value : option jsstring) : jsstring :=
  match value with
  | Some s => s
  | None => js "UNKNOWN"
  end.

(** Display version information for the [Deno.mainModule] program; the
    template literal is the one of the current revision. *)
Definition version (upperNonAscii : codeunit -> jsstring) (r : Runtime)
  (verData : option VersionOptions.t) : Eff.t jsstring :=
  let o := orEmpty verData in
  let version := withDefault (VersionOptions.version o) (js "0.0.1 [DEFAULT]") in
  let copyrightName :=
    withDefault (VersionOptions.copyrightName o)
                (js "Deno Dinosaur <deno@deno.land> [DEFAULT]") in
  let licenseUrl :=
    withDefault (VersionOptions.licenseUrl o)
                (js "https://github.com/<username_here>/ [DEFAULT]") in
  let crYear := withDefault (VersionOptions.crYear o) (js "2021 [DEFAULT]") in
  modTime <~ getFileModTime r (mainModule (host r)) ;;
  Eff.ret (banner upperNonAscii (host r) version (orUnknown modTime)
                  crYear copyrightName licenseUrl).

End Previous.

(* ------------------------------------------------------------------ *)
(** ** version_test.ts *)

(** ['version()' application test : default]: [true] when the test function
    returns, [false] when it throws (a rejected lookup, or [assertEquals] on
    two different strings). *)
Definition test_version_default (upperNonAscii : codeunit -> jsstring) (h : Host)
  : bool :=
  let denoVer := deno_version h in
  let denoArch := build_arch h in
  let denoCpuCores := hardwareConcurrency h in
  match outcome (getFileModTime h (js "./version_test.ts")) with
  | Rejected _ => false
  | Resolved testModTime =>
      let actual := js "" in
      let actual :=
        if jsstring_eqb denoArch (js "aarch64")
        then expected_default_aarch64 testModTime denoVer denoCpuCores
        else actual in
      let actual :=
        if jsstring_eqb denoArch (js "x86_64")
        then expected_default_x86_64 testModTime denoVer denoCpuCores
        else actual in
      match outcome (version upperNonAscii h None) with
      | Rejected _ => false
      | Resolved verData => jsstring_eqb verData actual
      end
  end.

(* ------------------------------------------------------------------ *)
(** ** Measures used in the properties *)

(** The number of line breaks in a string. *)
Definition lineBreaks (s : jsstring) : nat :=
  List.length (filter (N.eqb 10) s).

(** The status lookups among host calls. *)
Definition lookups (calls : list HostCall) : list jsstring :=
  flat_map (fun c => match c with CallLstat path => [path] | _ => [] end) calls.

(** The host calls among the effects of a run. *)
Definition hostCalls (done : list Effect) : list HostCall :=
  flat_map (fun e => match e with Call c => [c] | _ => [] end) done.

(** The lines a run gave to [console.debug]. *)
Definition debugLines (done : list Effect) : list jsstring :=
  flat_map (fun e => match e with ConsoleDebug text => [text] | _ => [] end) done.

(** A value whose first code unit, if it is a string with one, is ASCII. *)
Definition asciiFirst (v : JSValue) : bool :=
  match v with
  | VString (c :: _) => (c <? 128)%N
  | _ => true
  end.

(** A relative path in the working directory, and a file with one more
    sample host: the tests run from the directory of the repository. *)
Module SampleTest.

Definition files : list (jsstring * FileInfo) :=
  [ (js "/home/runner/version/version_test.ts", mkFileInfo (Some 1756127897000%Z));
    (js "./version_test.ts", mkFileInfo (Some 1756127897000%Z)) ].

Definition runner : Host :=
  mkHost (js "file:///home/runner/version/version_test.ts")
         (js "2.4.5") (js "linux") (js "x86_64") 4
         (Sample.lookupFile files) Sample.posix_fromFileUrl Sample.posix_basename.

(** The same machine with another processor. *)
Definition riscv : Host :=
  mkHost (js "file:///home/runner/version/version_test.ts")
         (js "2.4.5") (js "linux") (js "riscv64") 4
         (Sample.lookupFile files) Sample.posix_fromFileUrl Sample.posix_basename.

(** An aarch64 Linux machine. *)
Definition armLinux : Host :=
  mkHost (js "file:///home/runner/version/version_test.ts")
         (js "2.4.5") (js "linux") (js "aarch64") 4
         (Sample.lookupFile files) Sample.posix_fromFileUrl Sample.posix_basename.

(** A directory as the main module of the previous revision, and a file. *)
Definition directory : Previous.Runtime :=
  Previous.mkRuntime
    (mkHost (js "/home/runner/version")
            (js "2.4.5") (js "linux") (js "x86_64") 4
            (fun _ => inl (mkFileInfo (Some 1756127897000%Z)))
            Sample.posix_fromFileUrl Sample.posix_basename)
    (fun _ => false).

Definition regular : Previous.Runtime :=
  Previous.mkRuntime Sample.linuxHost (fun _ => true).

Definition missing : Previous.Runtime :=
  Previous.mkRuntime Sample.missingHost (fun _ => true).

Definition remote : Previous.Runtime :=
  Previous.mkRuntime Sample.remoteHost (fun _ => true).

End SampleTest.

(* ================================================================== *)
(** * Properties *)

(** ** Strings *)

Lemma jsstring_eqb_refl (s : jsstring) : jsstring_eqb s s = true.
Proof.
  induction s as [|c s IH]; simpl; [reflexivity|].
  now rewrite N.eqb_refl, IH.
Qed.

Lemma jsstring_eqb_eq (a b : jsstring) : jsstring_eqb a b = true <-> a = b.
Proof.
  split; [|intros ->; apply jsstring_eqb_refl].
  revert b; induction a as [|x a IH]; intros [|y b]; simpl; try discriminate; auto.
  intros H. apply andb_true_iff in H as [Hx Hr].
  apply N.eqb_eq in Hx. f_equal; auto.
Qed.

Lemma startsWith_app (search rest : jsstring) :
  startsWith (search ++ rest) search = true.
Proof.
  induction search as [|c search IH]; simpl; [reflexivity|].
  now rewrite N.eqb_refl.
Qed.

Lemma startsWith_nil_l (search : jsstring) :
  startsWith [] search = true -> search = [].
Proof. destruct search; simpl; [reflexivity | discriminate]. Qed.

Lemma includes_startsWith (s search : jsstring) :
  startsWith s search = true -> includes s search = true.
Proof. destruct s; simpl; intros ->; reflexivity. Qed.

Lemma includes_app_r (before s search : jsstring) :
  includes s search = true -> includes (before ++ s) search = true.
Proof.
  intros H. induction before as [|c before IH]; simpl; [exact H|].
  rewrite IH. apply orb_true_r.
Qed.

(** A string includes whatever stands between two of its parts. *)
Lemma includes_middle (before search after : jsstring) :
  includes (before ++ search ++ after) search = true.
Proof. apply includes_app_r, includes_startsWith, startsWith_app. Qed.

(** ** Asynchronous computations *)

(** A [try] whose handler resolves always resolves. *)
Lemma tryCatch_total {A} (m : Async A) (f : JSValue -> A) :
  exists a, outcome (tryCatch m (fun err => ret (f err))) = Resolved a.
Proof. destruct m as [calls [a|reason]]; simpl; eauto. Qed.

(** ** getFileModTime *)

Lemma isLocal_unfold (filePath : jsstring) :
  isLocal filePath = true ->
  (List.length filePath <? 1)%nat = false /\
  startsWith filePath (js "https://") || startsWith filePath (js "http://") = false.
Proof.
  unfold isLocal. intros H. apply andb_true_iff in H as [H1 H2].
  apply negb_true_iff in H1, H2. auto.
Qed.

(** On a local path the function converts a [file:] URL, then looks the
    path up and formats what it finds. *)
Lemma getFileModTime_local (h : Host) (p q : jsstring) :
  isLocal p = true -> lookupPath h p q ->
  getFileModTime h p =
  ((if startsWith p (js "file:") then [CallFromFileUrl p] else []) ++ [CallLstat q],
   match lstat h q with
   | inl fileInfo =>
       Resolved (match mtime fileInfo with
                 | Some d => DateTime.toUTCString d
                 | None => js "UNKNOWN no file modification time available."
                 end)
   | inr _ => Rejected (VError (js "UNKNOWN Deno.lstat failed for " ++ q))
   end).
Proof.
  intros Hloc Hq. apply isLocal_unfold in Hloc as [Hlen Hrem].
  unfold getFileModTime, lookupPath in *. rewrite Hlen, Hrem.
  destruct (startsWith p (js "file:")).
  - unfold path_fromFileUrl, Deno_lstat, settle. rewrite Hq. simpl.
    destruct (lstat h q); reflexivity.
  - subst q. unfold Deno_lstat, settle. simpl.
    destruct (lstat h p); reflexivity.
Qed.

(** ** Dates *)

Module DateFacts.
Import DateTime.
Local Open Scope Z_scope.

(** [YearFromTime] is the year ECMA-262 defines: the one whose first day is
    the last not after the day of [t]. *)
Lemma YearFromTime_spec (t : Z) :
  DayFromYear (YearFromTime t) <= Day t < DayFromYear (YearFromTime t + 1).
Proof.
  unfold YearFromTime.
  generalize (Day t); intros d.
  remember (1970 + 400 * d / 146097) as y eqn:Hy.
  destruct (d <? DayFromYear y) eqn:E1.
  - apply Z.ltb_lt in E1. unfold DayFromYear in *.
    Z.div_mod_to_equations; lia.
  - apply Z.ltb_ge in E1.
    destruct (DayFromYear (y + 1) <=? d) eqn:E2.
    + apply Z.leb_le in E2. unfold DayFromYear in *.
      Z.div_mod_to_equations; lia.
    + apply Z.leb_gt in E2. lia.
Qed.

Lemma DaysInYear_DayFromYear (y : Z) :
  DayFromYear (y + 1) = DayFromYear y + DaysInYear y.
Proof.
  unfold DayFromYear, DaysInYear.
  destruct (Z.eqb_spec (y mod 4) 0) as [E4|E4];
    destruct (Z.eqb_spec (y mod 100) 0) as [E100|E100];
    destruct (Z.eqb_spec (y mod 400) 0) as [E400|E400];
    cbv [negb]; Z.div_mod_to_equations; lia.
Qed.

Lemma DayWithinYear_range (t : Z) :
  0 <= DayWithinYear t < 365 + InLeapYear t.
Proof.
  unfold DayWithinYear, InLeapYear.
  pose proof (YearFromTime_spec t) as H.
  rewrite DaysInYear_DayFromYear in H.
  assert (Hd : DaysInYear (YearFromTime t) = 365 \/ DaysInYear (YearFromTime t) = 366).
  { unfold DaysInYear.
    repeat match goal with |- context [if ?b then _ else _] => destruct b end; auto. }
  destruct Hd as [Hd|Hd]; rewrite Hd in *; simpl; lia.
Qed.

Lemma MonthFromTime_range (t : Z) : 0 <= MonthFromTime t <= 11.
Proof.
  unfold MonthFromTime.
  repeat match goal with |- context [if ?b then _ else _] => destruct b end; lia.
Qed.

Lemma DateFromTime_range (t : Z) : 1 <= DateFromTime t <= 31.
Proof.
  pose proof (DayWithinYear_range t) as H.
  unfold DateFromTime, MonthFromTime.
  assert (Hl : InLeapYear t = 0 \/ InLeapYear t = 1)
    by (unfold InLeapYear; destruct (_ =? _); auto).
  repeat match goal with
         | |- context [if ?a <? ?b then _ else _] =>
             destruct (Z.ltb_spec a b)
         end; lia.
Qed.

(** Zero-padded decimals of small numbers are digit strings of the padded
    length. *)
Lemma padded_below (len : nat) (bound : Z) :
  forallb (fun k => digitString len (ToZeroPaddedDecimalString (Z.of_nat k) len))
          (seq 0 (Z.to_nat bound)) = true ->
  forall n, 0 <= n < bound ->
  digitString len (ToZeroPaddedDecimalString n len) = true.
Proof.
  intros Hall n Hn. rewrite forallb_forall in Hall.
  specialize (Hall (Z.to_nat n)). rewrite Z2Nat.id in Hall by lia.
  apply Hall, in_seq. lia.
Qed.

Lemma padded2 (n : Z) :
  0 <= n < 100 -> digitString 2 (ToZeroPaddedDecimalString n 2) = true.
Proof. apply (@padded_below 2 100). vm_compute. reflexivity. Qed.

Lemma padded4 (n : Z) :
  0 <= n < 10000 -> digitString 4 (ToZeroPaddedDecimalString n 4) = true.
Proof. apply (@padded_below 4 10000). vm_compute. reflexivity. Qed.

Lemma weekdayName_In (w : Z) : In (weekdayName w) weekdayNames.
Proof.
  unfold weekdayName.
  repeat match goal with |- context [match ?x with _ => _ end] => destruct x end;
    simpl; auto 10.
Qed.

Lemma monthName_In (m : Z) : In (monthName m) monthNames.
Proof.
  unfold monthName.
  repeat match goal with |- context [match ?x with _ => _ end] => destruct x end;
    simpl; auto 15.
Qed.

Lemma digitString2_inv (s : jsstring) :
  digitString 2 s = true ->
  exists a b, s = [a; b] /\ isDigit a = true /\ isDigit b = true.
Proof.
  destruct s as [|a [|b [|c s]]]; try discriminate.
  unfold digitString; simpl. intros H.
  apply andb_true_iff in H as [Ha H]. apply andb_true_iff in H as [Hb _].
  eauto.
Qed.

Lemma digitString4_inv (s : jsstring) :
  digitString 4 s = true ->
  exists a b c d, s = [a; b; c; d] /\
    isDigit a = true /\ isDigit b = true /\ isDigit c = true /\ isDigit d = true.
Proof.
  destruct s as [|a [|b [|c [|d [|e s]]]]]; try discriminate.
  unfold digitString; simpl. intros H.
  repeat (apply andb_true_iff in H as [? H]).
  eauto 10.
Qed.

(** A weekday name, a day, a month name, a four-digit year and a time make
    an RFC 1123 date. *)
Lemma isRFC1123Date_parts (W D M Y H Mi S : jsstring) :
  In W weekdayNames -> In M monthNames ->
  digitString 2 D = true -> digitString 4 Y = true ->
  digitString 2 H = true -> digitString 2 Mi = true -> digitString 2 S = true ->
  isRFC1123Date (W ++ js ", " ++ D ++ js " " ++ M ++ js " " ++ Y ++ js " " ++
                 H ++ js ":" ++ Mi ++ js ":" ++ S ++ js " GMT") = true.
Proof.
  intros HW HM HD HY HH HMi HS.
  apply digitString2_inv in HD as (d1 & d2 & -> & Hd1 & Hd2).
  apply digitString2_inv in HH as (h1 & h2 & -> & Hh1 & Hh2).
  apply digitString2_inv in HMi as (m1 & m2 & -> & Hm1 & Hm2).
  apply digitString2_inv in HS as (s1 & s2 & -> & Hs1 & Hs2).
  apply digitString4_inv in HY as (y1 & y2 & y3 & y4 & -> & Hy1 & Hy2 & Hy3 & Hy4).
  simpl in HW, HM.
  repeat (destruct HW as [<-|HW]; [|]); try contradiction;
    repeat (destruct HM as [<-|HM]; [|]); try contradiction;
    unfold isRFC1123Date; cbn;
    rewrite Hd1, Hd2, Hh1, Hh2, Hm1, Hm2, Hs1, Hs2, Hy1, Hy2, Hy3, Hy4;
    reflexivity.
Qed.

(** Between the years 0 and 9999 [toUTCString] gives an RFC 1123 date. *)
Lemma toUTCString_RFC1123 (tv : Date) :
  0 <= YearFromTime tv <= 9999 ->
  isRFC1123Date (toUTCString tv) = true.
Proof.
  intros Hy. unfold toUTCString, TimeString.
  destruct (Z.leb_spec 0 (YearFromTime tv)) as [_|]; [|lia].
  rewrite Z.abs_eq by lia.
  change ([] ++ ?x) with x.
  apply isRFC1123Date_parts.
  - apply weekdayName_In.
  - apply monthName_In.
  - apply padded2. pose proof (DateFromTime_range tv). lia.
  - apply padded4. lia.
  - apply padded2. unfold HourFromTime. pose proof (Z.mod_pos_bound (tv / msPerHour) 24). lia.
  - apply padded2. unfold MinFromTime. pose proof (Z.mod_pos_bound (tv / msPerMinute) 60). lia.
  - apply padded2. unfold SecFromTime. pose proof (Z.mod_pos_bound (tv / msPerSecond) 60). lia.
Qed.

End DateFacts.

(** ** The claims about [getFileModTime] *)

(** C8: on the empty path [getFileModTime] rejects with the error
    "UNKNOWN as no file path available." and has made no host call: the
    check comes before the URL conversion and before the status lookup. *)
Theorem getFileModTime_empty_path (h : Host) :
  getFileModTime h (js "") =
  ([], Rejected (VError (js "UNKNOWN as no file path available."))).
Proof. reflexivity. Qed.

Lemma startsWith_nonempty (s search : jsstring) :
  search <> [] -> startsWith s search = true -> (List.length s <? 1)%nat = false.
Proof.
  intros Hne H. destruct s as [|c s]; [|reflexivity].
  apply startsWith_nil_l in H. contradiction.
Qed.

(** C5: on a path that starts with [https://] or [http://],
    [getFileModTime] rejects with the error "UNKNOWN due to remote execution."
    and has made no host call, so no status lookup. *)
Theorem getFileModTime_remote (h : Host) (filePath : jsstring) :
  startsWith filePath (js "https://") || startsWith filePath (js "http://") = true ->
  getFileModTime h filePath =
  ([], Rejected (VError (js "UNKNOWN due to remote execution."))).
Proof.
  intros Hremote. unfold getFileModTime. rewrite Hremote.
  assert (Hlen : (List.length filePath <? 1)%nat = false).
  { apply orb_true_iff in Hremote as [H|H];
      eapply startsWith_nonempty; try exact H; discriminate. }
  rewrite Hlen. reflexivity.
Qed.

Lemma getFileModTime_remote_witness :
  startsWith (mainModule Sample.remoteHost) (js "https://")
  || startsWith (mainModule Sample.remoteHost) (js "http://") = true /\
  getFileModTime Sample.remoteHost (mainModule Sample.remoteHost) =
  ([], Rejected (VError (js "UNKNOWN due to remote execution."))).
Proof.
  split; [reflexivity|].
  apply getFileModTime_remote. reflexivity.
Defined.

(** C7: on a path that is not empty and not remote, when the status lookup
    itself fails (whatever it throws), [getFileModTime] rejects with the error
    "UNKNOWN Deno.lstat failed for <path>", whose message includes the path
    the lookup was made on. *)
Theorem getFileModTime_lookup_failed (h : Host) (p q : jsstring) (thrown : JSValue) :
  isLocal p = true -> lookupPath h p q -> lstat h q = inr thrown ->
  outcome (getFileModTime h p) =
    Rejected (VError (js "UNKNOWN Deno.lstat failed for " ++ q)) /\
  includes (js "UNKNOWN Deno.lstat failed for " ++ q) q = true /\
  In (CallLstat q) (trace (getFileModTime h p)).
Proof.
  intros Hloc Hq Hfail.
  rewrite (getFileModTime_local h p q Hloc Hq), Hfail. cbn [outcome trace fst snd].
  split; [reflexivity|split].
  - apply includes_app_r, includes_startsWith.
    rewrite <- (app_nil_r q) at 1. apply startsWith_app.
  - apply in_or_app. right. left. reflexivity.
Qed.

(** A path to a file that does not exist. *)
Lemma getFileModTime_lookup_failed_witness :
  outcome (getFileModTime Sample.missingHost (js "/tmp/gone.ts")) =
    Rejected (VError (js "UNKNOWN Deno.lstat failed for /tmp/gone.ts")) /\
  includes (js "UNKNOWN Deno.lstat failed for /tmp/gone.ts") (js "/tmp/gone.ts") = true /\
  In (CallLstat (js "/tmp/gone.ts"))
     (trace (getFileModTime Sample.missingHost (js "/tmp/gone.ts"))).
Proof.
  apply (@getFileModTime_lookup_failed Sample.missingHost (js "/tmp/gone.ts")
           (js "/tmp/gone.ts")
           (VError (js "No such file or directory (os error 2)")));
    reflexivity.
Defined.

Lemma file_url_isLocal (url : jsstring) :
  startsWith url (js "file:") = true -> isLocal url = true.
Proof.
  destruct url as [|c url]; [discriminate|].
  change (startsWith (c :: url) (js "file:"))
    with ((102 =? c)%N && startsWith url (js "ile:")).
  intros H. apply andb_true_iff in H as [Hc _].
  apply N.eqb_eq in Hc. subst c. reflexivity.
Qed.

(** C6: on a [file:] URL whose conversion gives a plain path that the status
    lookup finds, [getFileModTime] succeeds and settles as it does on that
    plain path; the URL is converted first, and the lookup is made on the
    converted path. *)
Theorem getFileModTime_file_url (h : Host) (url path : jsstring) (info : FileInfo) :
  startsWith url (js "file:") = true ->
  fromFileUrl h url = inl path ->
  isPlainPath path = true ->
  lstat h path = inl info ->
  outcome (getFileModTime h url) = outcome (getFileModTime h path) /\
  (exists modTime, outcome (getFileModTime h url) = Resolved modTime) /\
  trace (getFileModTime h url) = [CallFromFileUrl url; CallLstat path].
Proof.
  intros Hfile Hconv Hplain Hstat.
  unfold isPlainPath in Hplain. apply andb_true_iff in Hplain as [Hloc Hnofile].
  apply negb_true_iff in Hnofile.
  assert (Hq : lookupPath h url path) by (unfold lookupPath; now rewrite Hfile).
  assert (Hq' : lookupPath h path path) by (unfold lookupPath; now rewrite Hnofile).
  rewrite (getFileModTime_local h url path (file_url_isLocal url Hfile) Hq).
  rewrite (getFileModTime_local h path path Hloc Hq').
  rewrite Hfile, Hstat. cbn [outcome trace fst snd].
  split; [reflexivity|split; [eauto|reflexivity]].
Qed.

Lemma getFileModTime_file_url_witness :
  outcome (getFileModTime Sample.linuxHost
             (js "file:///home/runner/version/version_test.ts")) =
  outcome (getFileModTime Sample.linuxHost
             (js "/home/runner/version/version_test.ts")) /\
  (exists modTime,
      outcome (getFileModTime Sample.linuxHost
                 (js "file:///home/runner/version/version_test.ts")) =
      Resolved modTime) /\
  trace (getFileModTime Sample.linuxHost
           (js "file:///home/runner/version/version_test.ts")) =
  [CallFromFileUrl (js "file:///home/runner/version/version_test.ts");
   CallLstat (js "/home/runner/version/version_test.ts")].
Proof.
  apply (@getFileModTime_file_url Sample.linuxHost
           (js "file:///home/runner/version/version_test.ts")
           (js "/home/runner/version/version_test.ts")
           (mkFileInfo (Some 1756127897000%Z)));
    reflexivity.
Defined.

(** C4, as the code has it: on a path that is not empty and not remote, when
    the status lookup succeeds, [getFileModTime] resolves: with the
    modification time as [toUTCString] formats it (an RFC 1123 date for the
    years 0 to 9999) when the status carries one, and with the text
    "UNKNOWN no file modification time available." when it carries none. *)
Theorem getFileModTime_lookup_succeeds (h : Host) (p q : jsstring) (info : FileInfo) :
  isLocal p = true -> lookupPath h p q -> lstat h q = inl info ->
  outcome (getFileModTime h p) =
    Resolved (match mtime info with
              | Some d => DateTime.toUTCString d
              | None => js "UNKNOWN no file modification time available."
              end) /\
  (forall d, mtime info = Some d ->
             (0 <= DateTime.YearFromTime d <= 9999)%Z ->
             isRFC1123Date (DateTime.toUTCString d) = true).
Proof.
  intros Hloc Hq Hstat.
  rewrite (getFileModTime_local h p q Hloc Hq), Hstat.
  split; [reflexivity|].
  intros d _ Hyear. now apply DateFacts.toUTCString_RFC1123.
Qed.

Lemma getFileModTime_lookup_succeeds_witness :
  outcome (getFileModTime Sample.linuxHost (js "/home/runner/version/version_test.ts")) =
    Resolved (js "Mon, 25 Aug 2025 13:18:17 GMT") /\
  isRFC1123Date (js "Mon, 25 Aug 2025 13:18:17 GMT") = true.
Proof.
  destruct (@getFileModTime_lookup_succeeds Sample.linuxHost
              (js "/home/runner/version/version_test.ts")
              (js "/home/runner/version/version_test.ts")
              (mkFileInfo (Some 1756127897000%Z))
              eq_refl eq_refl eq_refl) as [Hres Hshape].
  split; [exact Hres|].
  apply (Hshape 1756127897000%Z eq_refl). vm_compute. split; discriminate.
Defined.

(** C4, as the claim states it, fails: the status of [/srv/app/main.ts]
    carries no modification time, and [getFileModTime] does not reject, it
    resolves with the fallback text. *)
Lemma getFileModTime_no_mtime_resolves :
  lstat Sample.noMtimeHost (js "/srv/app/main.ts") = inl (mkFileInfo None) /\
  getFileModTime Sample.noMtimeHost (js "/srv/app/main.ts") =
    ([CallLstat (js "/srv/app/main.ts")],
     Resolved (js "UNKNOWN no file modification time available.")) /\
  ~ (exists reason,
        outcome (getFileModTime Sample.noMtimeHost (js "/srv/app/main.ts")) =
        Rejected reason).
Proof.
  split; [reflexivity|split; [reflexivity|]].
  intros [reason H]. discriminate H.
Qed.

(** ** The claims about [toTitleCaseFirst] *)

Lemma isString_iff (v : JSValue) : isString v = true <-> exists s, v = VString s.
Proof.
  split.
  - destruct v; try discriminate. eauto.
  - intros [s ->]. reflexivity.
Qed.

(** C9: [toTitleCaseFirst] returns every value that is not a string, and the
    empty string, unchanged; of a string that is not empty it upper-cases the
    first code unit and keeps the rest; so the empty string gives the empty
    string, "darwin" gives "Darwin" and the number 42 gives 42. *)
Theorem toTitleCaseFirst_spec (upperNonAscii : codeunit -> jsstring) (v : JSValue) :
  toTitleCaseFirst upperNonAscii v =
    (if isString v then
       match v with
       | VString (c :: rest) => VString (toUpperCase upperNonAscii [c] ++ rest)
       | _ => v
       end
     else v) /\
  toTitleCaseFirst upperNonAscii (VString (js "")) = VString (js "") /\
  toTitleCaseFirst upperNonAscii (VString (js "darwin")) = VString (js "Darwin") /\
  toTitleCaseFirst upperNonAscii (VNumber 42) = VNumber 42.
Proof.
  split; [|repeat split; reflexivity].
  destruct v as [| |b|n|[|c rest]|m|i]; reflexivity.
Qed.

(** On ASCII the first code unit alone changes, and only when it is a
    lower-case letter. *)
Lemma toTitleCaseFirst_ascii U (c : codeunit) (rest : jsstring) :
  (c < 128)%N ->
  toTitleCaseFirst U (VString (c :: rest)) =
  VString ((if (97 <=? c)%N && (c <=? 122)%N then (c - 32)%N else c) :: rest).
Proof.
  intros Hc. unfold toTitleCaseFirst. cbn.
  destruct ((97 <=? c)%N && (c <=? 122)%N); [reflexivity|].
  apply N.ltb_lt in Hc. rewrite Hc. reflexivity.
Qed.

(** ** The claims about [version] *)

(** The template literal is the ten lines joined by line breaks. *)
Lemma banner_template U h version fileModTime crYear copyrightName licenseUrl :
  banner U h version fileModTime crYear copyrightName licenseUrl =
  template U h version fileModTime crYear copyrightName licenseUrl.
Proof.
  unfold banner, template, banner_lines, join.
  rewrite <- !app_assoc. reflexivity.
Qed.

(** [version()] resolves with the template, filled with the options (or their
    defaults) and with the text of the modification-time lookup; its host
    calls are those of the lookup. *)
Lemma version_resolves U (h : Host) (verData : option VersionOptions.t) :
  version U h verData =
  (trace (getFileModTime h (mainModule h)),
   Resolved
     (template U h
        (withDefault (VersionOptions.version (orEmpty verData)) (js "0.0.1 [DEFAULT]"))
        (modTimeText h)
        (withDefault (VersionOptions.crYear (orEmpty verData)) (js "2021 [DEFAULT]"))
        (withDefault (VersionOptions.copyrightName (orEmpty verData))
                     (js "Deno Dinosaur <deno@deno.land> [DEFAULT]"))
        (withDefault (VersionOptions.licenseUrl (orEmpty verData))
                     (js "https://github.com/<username_here>/ [DEFAULT]")))).
Proof.
  unfold version, modTimeText.
  destruct (getFileModTime h (mainModule h)) as [calls [modTime|err]];
    cbn [tryCatch bind ret outcome trace fst snd];
    rewrite !app_nil_r, banner_template; reflexivity.
Qed.

Lemma startsWith_app_both (a s search : jsstring) :
  startsWith (a ++ s) (a ++ search) = startsWith s search.
Proof.
  induction a as [|c a IH]; simpl; [reflexivity|].
  now rewrite N.eqb_refl.
Qed.

(** Looks for the searched text segment by segment: the text is found where
    the string goes on with the segments of the text. *)
Ltac starts_here :=
  apply includes_startsWith; rewrite ?startsWith_app_both; apply startsWith_app.

Ltac find_text :=
  unfold template, banner_lines, join;
  rewrite <- ?app_assoc;
  repeat first [ solve [starts_here] | apply includes_app_r ].

(** The modification text stands on a line of its own, after
    " Last modified on: ". *)
Lemma template_modification_line U h version fileModTime crYear copyrightName licenseUrl :
  includes (template U h version fileModTime crYear copyrightName licenseUrl)
           (js " Last modified on: " ++ fileModTime ++ nl) = true.
Proof. find_text. Qed.


Lemma template_version_value U h version fileModTime crYear copyrightName licenseUrl :
  includes (template U h version fileModTime crYear copyrightName licenseUrl)
           version = true.
Proof. find_text. Qed.



(** C1: for every options argument, and for none, [version()] resolves with
    a string; whatever the modification-time lookup rejects with is caught,
    and the message of the error (the fallback text for a value that is not
    an error) is in the banner, on the "Last modified on" line. *)
Theorem version_never_fails U (h : Host) (verData : option VersionOptions.t) :
  exists text,
    outcome (version U h verData) = Resolved text /\
    match outcome (getFileModTime h (mainModule h)) with
    | Resolved modTime =>
        includes text (js " Last modified on: " ++ modTime ++ nl) = true
    | Rejected (VError message) =>
        includes text (js " Last modified on: " ++ message ++ nl) = true
    | Rejected _ =>
        includes text (js " Last modified on: UNKNOWN unspecified error." ++ nl) = true
    end.
Proof.
  rewrite version_resolves. eexists. split; [reflexivity|].
  unfold modTimeText.
  destruct (outcome (getFileModTime h (mainModule h))) as [modTime|[]];
    apply template_modification_line.
Qed.


(** C3: a field of the options that holds a string, the empty string
    included, is what the banner shows; a field that is missing shows its
    default ("0.0.1 [DEFAULT]", "2021 [DEFAULT]",
    "Deno Dinosaur <deno@deno.land> [DEFAULT]",
    "https://github.com/<username_here>/ [DEFAULT]"); without an argument all
    four defaults show, and the banner includes "0.0.1 [DEFAULT]". *)
Theorem version_options U (h : Host)
  (version_ copyrightName_ licenseUrl_ crYear_ : option jsstring) :
  outcome (version U h (Some (VersionOptions.mk version_ copyrightName_
                                                licenseUrl_ crYear_))) =
    Resolved
      (template U h
         (match version_ with Some s => s | None => js "0.0.1 [DEFAULT]" end)
         (modTimeText h)
         (match crYear_ with Some s => s | None => js "2021 [DEFAULT]" end)
         (match copyrightName_ with
          | Some s => s
          | None => js "Deno Dinosaur <deno@deno.land> [DEFAULT]"
          end)
         (match licenseUrl_ with
          | Some s => s
          | None => js "https://github.com/<username_here>/ [DEFAULT]"
          end)) /\
  outcome (version U h (Some (VersionOptions.mk (Some (js "")) (Some (js ""))
                                                (Some (js "")) (Some (js ""))))) =
    Resolved (template U h (js "") (modTimeText h) (js "") (js "") (js "")) /\
  outcome (version U h None) =
    Resolved
      (template U h (js "0.0.1 [DEFAULT]") (modTimeText h) (js "2021 [DEFAULT]")
                (js "Deno Dinosaur <deno@deno.land> [DEFAULT]")
                (js "https://github.com/<username_here>/ [DEFAULT]")) /\
  includes
    (template U h (js "0.0.1 [DEFAULT]") (modTimeText h) (js "2021 [DEFAULT]")
              (js "Deno Dinosaur <deno@deno.land> [DEFAULT]")
              (js "https://github.com/<username_here>/ [DEFAULT]"))
    (js "0.0.1 [DEFAULT]") = true.
Proof.
  rewrite !version_resolves.
  split; [destruct version_, copyrightName_, licenseUrl_, crYear_; reflexivity|].
  split; [reflexivity|]. split; [reflexivity|].
  apply template_version_value.
Qed.

(** C10: when the modification-time lookup of [version()] rejects with an
    error, the message of the error is the text of the "Last modified on"
    line; when it rejects with any other value, the text of that line is
    "UNKNOWN unspecified error.". *)
Theorem version_catch U (h : Host) (verData : option VersionOptions.t) (err : JSValue) :
  outcome (getFileModTime h (mainModule h)) = Rejected err ->
  let fileModTime :=
    match err with
    | VError message => message
    | _ => js "UNKNOWN unspecified error."
    end in
  exists text,
    outcome (version U h verData) = Resolved text /\
    text =
      template U h
        (withDefault (VersionOptions.version (orEmpty verData)) (js "0.0.1 [DEFAULT]"))
        fileModTime
        (withDefault (VersionOptions.crYear (orEmpty verData)) (js "2021 [DEFAULT]"))
        (withDefault (VersionOptions.copyrightName (orEmpty verData))
                     (js "Deno Dinosaur <deno@deno.land> [DEFAULT]"))
        (withDefault (VersionOptions.licenseUrl (orEmpty verData))
                     (js "https://github.com/<username_here>/ [DEFAULT]")) /\
    includes text (js " Last modified on: " ++ fileModTime ++ nl) = true.
Proof.
  intros Hrej fileModTime. rewrite version_resolves.
  assert (Htext : modTimeText h = fileModTime).
  { unfold modTimeText. rewrite Hrej. subst fileModTime. destruct err; reflexivity. }
  rewrite Htext. eexists. split; [reflexivity|].
  split; [reflexivity|]. apply template_modification_line.
Qed.

(** A remote main module: the lookup rejects with an error.  A host whose
    URL conversion throws a string: the lookup rejects with that string. *)
Lemma version_catch_witness :
  (exists text,
      outcome (version Sample.asciiOnly Sample.remoteHost None) = Resolved text /\
      includes text (js " Last modified on: UNKNOWN due to remote execution." ++ nl)
      = true) /\
  (exists text,
      outcome (version Sample.asciiOnly Sample.oddHost None) = Resolved text /\
      includes text (js " Last modified on: UNKNOWN unspecified error." ++ nl)
      = true).
Proof.
  split.
  - destruct (version_catch Sample.asciiOnly Sample.remoteHost None
                (VError (js "UNKNOWN due to remote execution.")) eq_refl)
      as (text & Hres & _ & Hline).
    exists text. split; [exact Hres | exact Hline].
  - destruct (version_catch Sample.asciiOnly Sample.oddHost None
                (VString (js "not a file URL")) eq_refl)
      as (text & Hres & _ & Hline).
    exists text. split; [exact Hres | exact Hline].
Defined.

(** ** The test of the repository *)

(** 'version()' application test : default, on an x86_64 Linux machine: the
    string the test builds is the string [version()] resolves with. *)
Lemma version_test_default U (h : Host) (testModTime : jsstring) :
  build_os h = js "linux" -> build_arch h = js "x86_64" ->
  basename h (mainModule h) = js "version_test.ts" ->
  outcome (getFileModTime h (mainModule h)) = Resolved testModTime ->
  outcome (version U h None) =
  Resolved (expected_default_x86_64 testModTime (deno_version h)
                                    (hardwareConcurrency h)).
Proof.
  intros Hos Harch Hbase Hmod. rewrite version_resolves.
  unfold modTimeText. rewrite Hmod. cbn [outcome snd]. f_equal.
  unfold template, banner_lines, join, expected_default_x86_64.
  rewrite Hos, Harch, Hbase. rewrite <- !app_assoc. reflexivity.
Qed.

Lemma version_test_default_aarch64 U (h : Host) (testModTime : jsstring) :
  build_os h = js "darwin" -> build_arch h = js "aarch64" ->
  basename h (mainModule h) = js "version_test.ts" ->
  outcome (getFileModTime h (mainModule h)) = Resolved testModTime ->
  outcome (version U h None) =
  Resolved (expected_default_aarch64 testModTime (deno_version h)
                                     (hardwareConcurrency h)).
Proof.
  intros Hos Harch Hbase Hmod. rewrite version_resolves.
  unfold modTimeText. rewrite Hmod. cbn [outcome snd]. f_equal.
  unfold template, banner_lines, join, expected_default_aarch64.
  rewrite Hos, Harch, Hbase. rewrite <- !app_assoc. reflexivity.
Qed.

Example version_test_default_linuxHost U :
  outcome (version U Sample.linuxHost None) =
  Resolved (expected_default_x86_64 (js "Mon, 25 Aug 2025 13:18:17 GMT")
                                    (js "2.4.5") 4).
Proof. apply version_test_default; reflexivity. Qed.

(** The example of the documentation. *)
Example toUTCString_example :
  DateTime.toUTCString 1756127897000%Z = js "Mon, 25 Aug 2025 13:18:17 GMT".
Proof. reflexivity. Qed.

(* ================================================================== *)
(** * Further properties of the code *)

(** ** [isString] and [toTitleCaseFirst] *)

(** X1: [isString] holds of the string values and of no other value: not of
    [undefined], [null], booleans, numbers, errors or other objects. *)
Theorem isString_exactly_strings (v : JSValue) :
  isString v = true <-> exists s, v = VString s.
Proof.
  split.
  - destruct v as [| |b|n|s|m|i]; try (intros H; discriminate H).
    intros _. exists s. reflexivity.
  - intros [s ->]. reflexivity.
Qed.

(** X2: on a value whose first code unit is ASCII (and on every value that is
    not a string, or is the empty string) [toTitleCaseFirst] is idempotent,
    and of a string it keeps the length and everything after the first code
    unit. *)
Theorem toTitleCaseFirst_idempotent U (v : JSValue) :
  asciiFirst v = true ->
  toTitleCaseFirst U (toTitleCaseFirst U v) = toTitleCaseFirst U v /\
  (forall s, v = VString s ->
     exists s', toTitleCaseFirst U v = VString s' /\
                List.length s' = List.length s /\ skipn 1 s' = skipn 1 s).
Proof.
  intros Hascii.
  destruct v as [| |b|n|[|c rest]|m|i];
    try (split; [reflexivity | intros s Hs; discriminate Hs]).
  - split; [reflexivity|]. intros s Hs. injection Hs as <-.
    exists []. repeat split.
  - cbn [asciiFirst] in Hascii. apply N.ltb_lt in Hascii.
    rewrite (toTitleCaseFirst_ascii U c rest Hascii).
    destruct ((97 <=? c)%N && (c <=? 122)%N) eqn:Hlower.
    + apply andb_true_iff in Hlower as [H1 H2]. apply N.leb_le in H1, H2.
      split.
      * rewrite toTitleCaseFirst_ascii by lia.
        assert (Hupper : (97 <=? c - 32)%N && (c - 32 <=? 122)%N = false)
          by (apply andb_false_iff; left; apply N.leb_gt; lia).
        rewrite Hupper. reflexivity.
      * intros s Hs. injection Hs as <-. eexists. repeat split.
    + split.
      * rewrite toTitleCaseFirst_ascii by lia. rewrite Hlower. reflexivity.
      * intros s Hs. injection Hs as <-. eexists. repeat split.
Qed.

Lemma toTitleCaseFirst_idempotent_witness :
  toTitleCaseFirst Sample.asciiOnly
    (toTitleCaseFirst Sample.asciiOnly (VString (js "darwin"))) = VString (js "Darwin") /\
  exists s', toTitleCaseFirst Sample.asciiOnly (VString (js "darwin")) = VString s' /\
             List.length s' = 6 /\ skipn 1 s' = js "arwin".
Proof.
  destruct (toTitleCaseFirst_idempotent Sample.asciiOnly (VString (js "darwin")) eq_refl)
    as [Hidem Hrest].
  split; [exact Hidem|].
  exact (Hrest (js "darwin") eq_refl).
Defined.

(** ** [getFileModTime] *)

Lemma not_isLocal_no_calls (h : Host) (p : jsstring) :
  isLocal p = false -> trace (getFileModTime h p) = [].
Proof.
  unfold isLocal, getFileModTime. intros H.
  destruct (List.length p <? 1)%nat; [reflexivity|].
  destruct (startsWith p (js "https://") || startsWith p (js "http://"));
    [reflexivity | discriminate H].
Qed.

Lemma getFileModTime_conversion_thrown (h : Host) (p : jsstring) (thrown : JSValue) :
  startsWith p (js "file:") = true -> fromFileUrl h p = inr thrown ->
  getFileModTime h p = ([CallFromFileUrl p], Rejected thrown).
Proof.
  intros Hfile Hthrow.
  destruct (isLocal_unfold p (file_url_isLocal p Hfile)) as [Hlen Hrem].
  unfold getFileModTime. rewrite Hlen, Hrem, Hfile.
  unfold path_fromFileUrl, settle. rewrite Hthrow. reflexivity.
Qed.

Lemma getFileModTime_trace (h : Host) (p : jsstring) :
  trace (getFileModTime h p) =
    (if isLocal p then
       if startsWith p (js "file:") then
         match fromFileUrl h p with
         | inl q => [CallFromFileUrl p; CallLstat q]
         | inr _ => [CallFromFileUrl p]
         end
       else [CallLstat p]
     else []).
Proof.
  destruct (isLocal p) eqn:Hloc; [|now apply not_isLocal_no_calls].
  destruct (startsWith p (js "file:")) eqn:Hfile.
  - destruct (fromFileUrl h p) as [q|thrown] eqn:Hconv.
    + rewrite (getFileModTime_local h p q Hloc); [now rewrite Hfile|].
      unfold lookupPath. now rewrite Hfile.
    + now rewrite (getFileModTime_conversion_thrown h p thrown Hfile Hconv).
  - rewrite (getFileModTime_local h p p Hloc); [now rewrite Hfile|].
    unfold lookupPath. now rewrite Hfile.
Qed.

Lemma getFileModTime_one_lookup (h : Host) (p : jsstring) :
  (List.length (lookups (trace (getFileModTime h p))) <= 1)%nat.
Proof.
  rewrite getFileModTime_trace.
  destruct (isLocal p); [|cbn; lia].
  destruct (startsWith p (js "file:")); [|cbn; lia].
  destruct (fromFileUrl h p); cbn; lia.
Qed.

(** X3: [getFileModTime] makes no host call on a path that is empty or
    remote; otherwise it converts the path only when it starts with [file:],
    and looks up one path at most: the path itself, or what the conversion
    gave. *)
Theorem getFileModTime_calls (h : Host) (p : jsstring) :
  trace (getFileModTime h p) =
    (if isLocal p then
       if startsWith p (js "file:") then
         match fromFileUrl h p with
         | inl q => [CallFromFileUrl p; CallLstat q]
         | inr _ => [CallFromFileUrl p]
         end
       else [CallLstat p]
     else []) /\
  (List.length (lookups (trace (getFileModTime h p))) <= 1)%nat.
Proof.
  split; [apply getFileModTime_trace | apply getFileModTime_one_lookup].
Qed.

(** X4: the conversion of a [file:] URL stands outside the [try]: when
    [fromFileUrl] throws, [getFileModTime] rejects with the very value thrown,
    and makes no status lookup. *)
Theorem getFileModTime_conversion_throws (h : Host) (p : jsstring) (thrown : JSValue) :
  startsWith p (js "file:") = true -> fromFileUrl h p = inr thrown ->
  outcome (getFileModTime h p) = Rejected thrown /\
  lookups (trace (getFileModTime h p)) = [].
Proof.
  intros Hfile Hthrow.
  rewrite (getFileModTime_conversion_thrown h p thrown Hfile Hthrow).
  split; reflexivity.
Qed.

Lemma getFileModTime_conversion_throws_witness :
  outcome (getFileModTime Sample.oddHost (mainModule Sample.oddHost)) =
    Rejected (VString (js "not a file URL")) /\
  lookups (trace (getFileModTime Sample.oddHost (mainModule Sample.oddHost))) = [].
Proof.
  apply (getFileModTime_conversion_throws Sample.oddHost (mainModule Sample.oddHost)
           (VString (js "not a file URL")) eq_refl eq_refl).
Defined.

Lemma not_isLocal_outcome (h : Host) (p : jsstring) :
  isLocal p = false ->
  outcome (getFileModTime h p) =
    Rejected (VError (js "UNKNOWN as no file path available.")) \/
  outcome (getFileModTime h p) =
    Rejected (VError (js "UNKNOWN due to remote execution.")).
Proof.
  unfold isLocal, getFileModTime. intros H.
  destruct (List.length p <? 1)%nat; [left; reflexivity|].
  destruct (startsWith p (js "https://") || startsWith p (js "http://"));
    [right; reflexivity | discriminate H].
Qed.

(** On a local path either some path is looked up, or the conversion of the
    [file:] URL throws. *)
Lemma lookupPath_or_thrown (h : Host) (p : jsstring) :
  (exists q, lookupPath h p q) \/
  (startsWith p (js "file:") = true /\ exists thrown, fromFileUrl h p = inr thrown).
Proof.
  unfold lookupPath. destruct (startsWith p (js "file:")); [|eauto].
  destruct (fromFileUrl h p); eauto.
Qed.

(** X5: the reasons [getFileModTime] rejects with are the three errors of its
    own (no path, remote execution, failed lookup of some path) and, for a
    [file:] URL, what [fromFileUrl] threw; what [Deno.lstat] threw is never
    passed on. *)
Theorem getFileModTime_rejections (h : Host) (p : jsstring) (err : JSValue) :
  outcome (getFileModTime h p) = Rejected err ->
  err = VError (js "UNKNOWN as no file path available.") \/
  err = VError (js "UNKNOWN due to remote execution.") \/
  (exists q, err = VError (js "UNKNOWN Deno.lstat failed for " ++ q) /\
             lookupPath h p q /\ exists thrown, lstat h q = inr thrown) \/
  (startsWith p (js "file:") = true /\ fromFileUrl h p = inr err).
Proof.
  intros Hrej.
  destruct (isLocal p) eqn:Hloc.
  2:{ destruct (not_isLocal_outcome h p Hloc) as [H|H]; rewrite H in Hrej;
        injection Hrej as <-; auto. }
  right; right.
  destruct (lookupPath_or_thrown h p) as [[q Hq]|[Hfile [thrown Hthrow]]].
  - left. rewrite (getFileModTime_local h p q Hloc Hq) in Hrej. cbn in Hrej.
    destruct (lstat h q) as [info|thrown] eqn:Hstat; [discriminate Hrej|].
    injection Hrej as <-. exists q. eauto.
  - right. rewrite (getFileModTime_conversion_thrown h p thrown Hfile Hthrow) in Hrej.
    injection Hrej as <-. auto.
Qed.

Lemma getFileModTime_rejections_witness :
  VError (js "UNKNOWN Deno.lstat failed for /tmp/gone.ts") =
    VError (js "UNKNOWN as no file path available.") \/
  VError (js "UNKNOWN Deno.lstat failed for /tmp/gone.ts") =
    VError (js "UNKNOWN due to remote execution.") \/
  (exists q, VError (js "UNKNOWN Deno.lstat failed for /tmp/gone.ts") =
               VError (js "UNKNOWN Deno.lstat failed for " ++ q) /\
             lookupPath Sample.missingHost (js "/tmp/gone.ts") q /\
             exists thrown, lstat Sample.missingHost q = inr thrown) \/
  (startsWith (js "/tmp/gone.ts") (js "file:") = true /\
   fromFileUrl Sample.missingHost (js "/tmp/gone.ts") =
     inr (VError (js "UNKNOWN Deno.lstat failed for /tmp/gone.ts"))).
Proof.
  apply (getFileModTime_rejections Sample.missingHost (js "/tmp/gone.ts")).
  reflexivity.
Defined.

Lemma toUTCString_not_UNKNOWN (tv : Date) :
  startsWith (DateTime.toUTCString tv) (js "UNKNOWN") = false.
Proof.
  unfold DateTime.toUTCString.
  pose proof (DateFacts.weekdayName_In (DateTime.WeekDay tv)) as Hday.
  cbn [weekdayNames map In] in Hday.
  repeat (destruct Hday as [<-|Hday]; [reflexivity|]).
  contradiction.
Qed.

(** X6: what [getFileModTime] resolves with is the date of the modification
    time of the path looked up, which never starts with "UNKNOWN", or else
    the text "UNKNOWN no file modification time available.": the two cannot
    be confused. *)
Theorem getFileModTime_resolutions (h : Host) (p s : jsstring) :
  outcome (getFileModTime h p) = Resolved s ->
  (exists d q info,
      s = DateTime.toUTCString d /\ startsWith s (js "UNKNOWN") = false /\
      lookupPath h p q /\ lstat h q = inl info /\ mtime info = Some d) \/
  s = js "UNKNOWN no file modification time available.".
Proof.
  intros Hres.
  destruct (isLocal p) eqn:Hloc.
  2:{ destruct (not_isLocal_outcome h p Hloc) as [H|H]; rewrite H in Hres;
        discriminate Hres. }
  destruct (lookupPath_or_thrown h p) as [[q Hq]|[Hfile [thrown Hthrow]]].
  - rewrite (getFileModTime_local h p q Hloc Hq) in Hres. cbn in Hres.
    destruct (lstat h q) as [info|thrown] eqn:Hstat; [|discriminate Hres].
    injection Hres as <-.
    destruct (mtime info) as [d|] eqn:Hm; [left|right; reflexivity].
    exists d, q, info. repeat split; auto. apply toUTCString_not_UNKNOWN.
  - rewrite (getFileModTime_conversion_thrown h p thrown Hfile Hthrow) in Hres.
    discriminate Hres.
Qed.

Lemma getFileModTime_resolutions_witness :
  (exists d q info,
      js "Mon, 25 Aug 2025 13:18:17 GMT" = DateTime.toUTCString d /\
      startsWith (js "Mon, 25 Aug 2025 13:18:17 GMT") (js "UNKNOWN") = false /\
      lookupPath Sample.linuxHost (mainModule Sample.linuxHost) q /\
      lstat Sample.linuxHost q = inl info /\ mtime info = Some d) \/
  js "Mon, 25 Aug 2025 13:18:17 GMT" =
  js "UNKNOWN no file modification time available.".
Proof.
  apply (getFileModTime_resolutions Sample.linuxHost (mainModule Sample.linuxHost)).
  reflexivity.
Defined.

(** ** [version] *)

(** X7: the text [version()] puts on the "Last modified on" line is a date
    (which never starts with "UNKNOWN"), or a text that starts with
    "UNKNOWN", or, when the main module is a [file:] URL whose conversion
    throws an error, the message of that error. *)
Theorem version_modification_text U (h : Host) (verData : option VersionOptions.t) :
  exists text modText,
    outcome (version U h verData) = Resolved text /\
    text =
      template U h
        (withDefault (VersionOptions.version (orEmpty verData)) (js "0.0.1 [DEFAULT]"))
        modText
        (withDefault (VersionOptions.crYear (orEmpty verData)) (js "2021 [DEFAULT]"))
        (withDefault (VersionOptions.copyrightName (orEmpty verData))
                     (js "Deno Dinosaur <deno@deno.land> [DEFAULT]"))
        (withDefault (VersionOptions.licenseUrl (orEmpty verData))
                     (js "https://github.com/<username_here>/ [DEFAULT]")) /\
    ((exists d, modText = DateTime.toUTCString d /\
                startsWith modText (js "UNKNOWN") = false) \/
     startsWith modText (js "UNKNOWN") = true \/
     (exists message,
         startsWith (mainModule h) (js "file:") = true /\
         fromFileUrl h (mainModule h) = inr (VError message) /\
         modText = message)).
Proof.
  rewrite version_resolves. eexists. exists (modTimeText h).
  split; [reflexivity|]. split; [reflexivity|].
  unfold modTimeText.
  destruct (isLocal (mainModule h)) eqn:Hloc.
  2:{ right; left.
      destruct (not_isLocal_outcome h _ Hloc) as [H|H]; rewrite H; reflexivity. }
  destruct (lookupPath_or_thrown h (mainModule h))
    as [[q Hq]|[Hfile [thrown Hthrow]]].
  - rewrite (getFileModTime_local h _ q Hloc Hq). cbn [outcome snd].
    destruct (lstat h q) as [info|thrown]; [|right; left; reflexivity].
    destruct (mtime info) as [d|]; [left|right; left; reflexivity].
    exists d. split; [reflexivity | apply toUTCString_not_UNKNOWN].
  - rewrite (getFileModTime_conversion_thrown h _ thrown Hfile Hthrow).
    cbn [outcome snd].
    destruct thrown as [| |b|n|s|message|i]; try (right; left; reflexivity).
    right; right. exists message. auto.
Qed.

(** X8: the host calls of [version()] are those of one modification-time
    lookup of the main module, whatever the options: one status lookup at
    most, and none for a remote main module. *)
Theorem version_calls U (h : Host) (verData verData' : option VersionOptions.t) :
  trace (version U h verData) = trace (getFileModTime h (mainModule h)) /\
  trace (version U h verData') = trace (version U h verData) /\
  (List.length (lookups (trace (version U h verData))) <= 1)%nat /\
  (isLocal (mainModule h) = false -> trace (version U h verData) = []).
Proof.
  rewrite !version_resolves. cbn [trace fst].
  split; [reflexivity|]. split; [reflexivity|].
  split; [apply getFileModTime_one_lookup | apply not_isLocal_no_calls].
Qed.

Lemma version_calls_witness :
  trace (version Sample.asciiOnly Sample.remoteHost (Some versionOptions)) = [] /\
  trace (version Sample.asciiOnly Sample.remoteHost None) = [].
Proof.
  destruct (version_calls Sample.asciiOnly Sample.remoteHost
              (Some versionOptions) None) as (_ & Hsame & _ & Hremote).
  split; [exact (Hremote eq_refl)|].
  rewrite Hsame. exact (Hremote eq_refl).
Defined.

Lemma lineBreaks_app (a b : jsstring) :
  lineBreaks (a ++ b) = lineBreaks a + lineBreaks b.
Proof. unfold lineBreaks. now rewrite filter_app, length_app. Qed.

Lemma lineBreaks_uint (d : Decimal.uint) :
  lineBreaks (js (NilEmpty.string_of_uint d)) = 0.
Proof. induction d; [reflexivity | exact IHd ..]. Qed.

Lemma lineBreaks_decimal (n : N) : lineBreaks (decimal n) = 0.
Proof.
  unfold decimal, NilZero.string_of_uint.
  destruct (N.to_uint n) eqn:Hd; [reflexivity | rewrite <- Hd ..];
    apply lineBreaks_uint.
Qed.

(** Counts the line breaks of the literal parts of a string. *)
Ltac count_literals :=
  repeat match goal with
         | |- context [lineBreaks ?x] =>
             let v := eval vm_compute in (lineBreaks x) in
             match v with
             | 0 => change (lineBreaks x) with 0
             | 1 => change (lineBreaks x) with 1
             end
         end.

(** X9: [version()] escapes nothing: the banner has nine line breaks of its
    own (ten lines), and one more for every line break in a text it
    substitutes: the file name, the version, the modification text, the Deno
    version, the system name, the architecture, the year, the holder and the
    URL. *)
Theorem version_line_breaks U (h : Host) (verData : option VersionOptions.t) :
  exists text,
    outcome (version U h verData) = Resolved text /\
    lineBreaks text =
      9 + lineBreaks (basename h (mainModule h))
        + lineBreaks (withDefault (VersionOptions.version (orEmpty verData))
                                  (js "0.0.1 [DEFAULT]"))
        + lineBreaks (modTimeText h)
        + lineBreaks (deno_version h)
        + lineBreaks (ToString (toTitleCaseFirst U (VString (build_os h))))
        + lineBreaks (build_arch h)
        + lineBreaks (withDefault (VersionOptions.crYear (orEmpty verData))
                                  (js "2021 [DEFAULT]"))
        + lineBreaks (withDefault (VersionOptions.copyrightName (orEmpty verData))
                                  (js "Deno Dinosaur <deno@deno.land> [DEFAULT]"))
        + lineBreaks (withDefault (VersionOptions.licenseUrl (orEmpty verData))
                                  (js "https://github.com/<username_here>/ [DEFAULT]")).
Proof.
  rewrite version_resolves. eexists. split; [reflexivity|].
  unfold template, banner_lines, join.
  rewrite !lineBreaks_app, lineBreaks_decimal.
  generalize (lineBreaks (basename h (mainModule h))).
  generalize (lineBreaks (modTimeText h)).
  generalize (lineBreaks (deno_version h)).
  generalize (lineBreaks (ToString (toTitleCaseFirst U (VString (build_os h))))).
  generalize (lineBreaks (build_arch h)).
  generalize (lineBreaks (withDefault (VersionOptions.version (orEmpty verData))
                                      (js "0.0.1 [DEFAULT]"))).
  generalize (lineBreaks (withDefault (VersionOptions.crYear (orEmpty verData))
                                      (js "2021 [DEFAULT]"))).
  generalize (lineBreaks (withDefault (VersionOptions.copyrightName (orEmpty verData))
                                      (js "Deno Dinosaur <deno@deno.land> [DEFAULT]"))).
  generalize (lineBreaks (withDefault (VersionOptions.licenseUrl (orEmpty verData))
                                      (js "https://github.com/<username_here>/ [DEFAULT]"))).
  intros. count_literals. lia.
Qed.

(** ** The main block *)

(** X10: importing the module does nothing; run as the main module it never
    fails and gives four texts to the console, in this order: the heading of
    the default output, the default banner, the heading of the customised
    output, the customised banner; each banner after one modification-time
    lookup of the main module. *)
Theorem main_effects U (h : Host) :
  main U h false = ([], Resolved tt) /\
  exists default customised,
    outcome (version U h None) = Resolved default /\
    outcome (version U h (Some versionOptions)) = Resolved customised /\
    Eff.result (main U h true) = Resolved tt /\
    Eff.effects (main U h true) =
      map Call (trace (getFileModTime h (mainModule h))) ++
      [ConsoleLog (nl ++ js "DEFAULT OUTPUT:"); ConsoleLog default;
       ConsoleLog (js "CUSTOMISED OUTPUT:")] ++
      map Call (trace (getFileModTime h (mainModule h))) ++
      [ConsoleLog customised].
Proof.
  split; [reflexivity|].
  unfold main. rewrite !version_resolves. do 2 eexists.
  split; [reflexivity|]. split; [reflexivity|].
  cbn [Eff.lift Eff.bind Eff.consoleLog Eff.result Eff.effects
       trace outcome fst snd].
  split; [reflexivity|].
  rewrite <- ?app_assoc. reflexivity.
Qed.

(** ** The previous revision *)

Lemma Previous_getFileModTime_lookup (r : Previous.Runtime) (p q : jsstring) :
  (List.length p <? 1)%nat = false -> lookupPath (Previous.host r) p q ->
  Previous.getFileModTime r p =
  ((if startsWith p (js "file:") then [Call (CallFromFileUrl p)] else []) ++
   [ConsoleDebug (js "DEBUG: final path for 'getFileModTime()' is: " ++ q);
    Call (CallLstat q)],
   match lstat (Previous.host r) q with
   | inl fileInfo =>
       Resolved (if Previous.isFile r q
                 then option_map DateTime.toUTCString (mtime fileInfo)
                 else None)
   | inr _ =>
       Rejected
         (VError (js "Unable to 'Deno.lstat' file in function 'getFileModTime'"))
   end).
Proof.
  intros Hlen Hq. unfold Previous.getFileModTime, lookupPath in *. rewrite Hlen.
  destruct (startsWith p (js "file:")).
  - unfold path_fromFileUrl, Deno_lstat, settle, Eff.lift. rewrite Hq.
    cbn. destruct (lstat (Previous.host r) q) as [info|thrown]; cbn.
    + destruct (Previous.isFile r q); [destruct (mtime info)|]; reflexivity.
    + reflexivity.
  - subst q. unfold Deno_lstat, settle, Eff.lift.
    cbn. destruct (lstat (Previous.host r) p) as [info|thrown]; cbn.
    + destruct (Previous.isFile r p); [destruct (mtime info)|]; reflexivity.
    + reflexivity.
Qed.

Lemma Previous_version_unfold U (r : Previous.Runtime)
  (verData : option VersionOptions.t) :
  Previous.version U r verData =
  (Eff.effects (Previous.getFileModTime r (mainModule (Previous.host r))),
   match Eff.result (Previous.getFileModTime r (mainModule (Previous.host r))) with
   | Resolved modTime =>
       Resolved
         (template U (Previous.host r)
            (withDefault (VersionOptions.version (orEmpty verData))
                         (js "0.0.1 [DEFAULT]"))
            (Previous.orUnknown modTime)
            (withDefault (VersionOptions.crYear (orEmpty verData))
                         (js "2021 [DEFAULT]"))
            (withDefault (VersionOptions.copyrightName (orEmpty verData))
                         (js "Deno Dinosaur <deno@deno.land> [DEFAULT]"))
            (withDefault (VersionOptions.licenseUrl (orEmpty verData))
                         (js "https://github.com/<username_here>/ [DEFAULT]")))
   | Rejected reason => Rejected reason
   end).
Proof.
  unfold Previous.version.
  destruct (Previous.getFileModTime r (mainModule (Previous.host r)))
    as [done [modTime|reason]]; cbn [Eff.bind Eff.ret Eff.effects Eff.result fst snd].
  - rewrite app_nil_r, banner_template. reflexivity.
  - reflexivity.
Qed.

Lemma remote_not_file_url (p : jsstring) :
  startsWith p (js "https://") || startsWith p (js "http://") = true ->
  startsWith p (js "file:") = false /\ (List.length p <? 1)%nat = false.
Proof.
  destruct p as [|c p]; [discriminate|].
  change (startsWith (c :: p) (js "https://"))
    with ((104 =? c)%N && startsWith p (js "ttps://")).
  change (startsWith (c :: p) (js "http://"))
    with ((104 =? c)%N && startsWith p (js "ttp://")).
  change (startsWith (c :: p) (js "file:"))
    with ((102 =? c)%N && startsWith p (js "ile:")).
  intros H. split; [|reflexivity].
  destruct (N.eqb_spec 104 c) as [<-|Hc]; [reflexivity|].
  discriminate H.
Qed.

(** X11: the previous revision writes to the console on every lookup: on a
    path that is not empty, once the conversion of a [file:] URL has
    succeeded, [getFileModTime] gives one line to [console.debug], naming the
    path it then looks up, before the lookup. *)
Theorem Previous_getFileModTime_debug (r : Previous.Runtime) (p q : jsstring) :
  (List.length p <? 1)%nat = false -> lookupPath (Previous.host r) p q ->
  Eff.effects (Previous.getFileModTime r p) =
    (if startsWith p (js "file:") then [Call (CallFromFileUrl p)] else []) ++
    [ConsoleDebug (js "DEBUG: final path for 'getFileModTime()' is: " ++ q);
     Call (CallLstat q)] /\
  debugLines (Eff.effects (Previous.getFileModTime r p)) =
    [js "DEBUG: final path for 'getFileModTime()' is: " ++ q].
Proof.
  intros Hlen Hq. rewrite (Previous_getFileModTime_lookup r p q Hlen Hq).
  cbn [Eff.effects fst]. split; [reflexivity|].
  destruct (startsWith p (js "file:")); reflexivity.
Qed.

Lemma Previous_getFileModTime_debug_witness :
  debugLines (Eff.effects (Previous.getFileModTime SampleTest.regular
                             (js "file:///home/runner/version/version_test.ts"))) =
  [js "DEBUG: final path for 'getFileModTime()' is: /home/runner/version/version_test.ts"].
Proof.
  apply (proj2 (Previous_getFileModTime_debug SampleTest.regular
                  (js "file:///home/runner/version/version_test.ts")
                  (js "/home/runner/version/version_test.ts") eq_refl eq_refl)).
Defined.

(** X12: the previous revision has no remote check: on a path that starts
    with [https://] or [http://] it looks the URL up as if it were a file
    path, where the current revision makes no host call. *)
Theorem Previous_getFileModTime_remote (r : Previous.Runtime) (p : jsstring) :
  startsWith p (js "https://") || startsWith p (js "http://") = true ->
  hostCalls (Eff.effects (Previous.getFileModTime r p)) = [CallLstat p] /\
  trace (getFileModTime (Previous.host r) p) = [].
Proof.
  intros Hremote. destruct (remote_not_file_url p Hremote) as [Hfile Hlen].
  split.
  - rewrite (Previous_getFileModTime_lookup r p p Hlen).
    + rewrite Hfile. reflexivity.
    + unfold lookupPath. now rewrite Hfile.
  - apply not_isLocal_no_calls. unfold isLocal. rewrite Hremote.
    apply andb_false_r.
Qed.

Lemma Previous_getFileModTime_remote_witness :
  hostCalls (Eff.effects (Previous.getFileModTime SampleTest.remote
                            (mainModule Sample.remoteHost))) =
    [CallLstat (mainModule Sample.remoteHost)] /\
  trace (getFileModTime Sample.remoteHost (mainModule Sample.remoteHost)) = [].
Proof.
  apply (Previous_getFileModTime_remote SampleTest.remote
           (mainModule Sample.remoteHost) eq_refl).
Defined.

(** X13: the previous [version()] fails outward: it has no [try], so when the
    status lookup of the main module fails it rejects with the error
    "Unable to 'Deno.lstat' file in function 'getFileModTime'", where the
    current [version()] resolves with a banner. *)
Theorem Previous_version_rejects U (r : Previous.Runtime)
  (verData : option VersionOptions.t) (q : jsstring) (thrown : JSValue) :
  (List.length (mainModule (Previous.host r)) <? 1)%nat = false ->
  lookupPath (Previous.host r) (mainModule (Previous.host r)) q ->
  lstat (Previous.host r) q = inr thrown ->
  Eff.result (Previous.version U r verData) =
    Rejected
      (VError (js "Unable to 'Deno.lstat' file in function 'getFileModTime'")) /\
  exists text, outcome (version U (Previous.host r) verData) = Resolved text.
Proof.
  intros Hlen Hq Hthrow. split.
  - rewrite Previous_version_unfold,
      (Previous_getFileModTime_lookup r _ q Hlen Hq), Hthrow. reflexivity.
  - rewrite version_resolves. eexists. reflexivity.
Qed.

Lemma Previous_version_rejects_witness :
  Eff.result (Previous.version Sample.asciiOnly SampleTest.missing None) =
    Rejected
      (VError (js "Unable to 'Deno.lstat' file in function 'getFileModTime'")) /\
  exists text, outcome (version Sample.asciiOnly Sample.missingHost None) = Resolved text.
Proof.
  apply (Previous_version_rejects Sample.asciiOnly SampleTest.missing None
           (js "/tmp/gone.ts")
           (VError (js "No such file or directory (os error 2)"))
           eq_refl eq_refl eq_refl).
Defined.

(** X14: the two revisions agree where both find a date: when the main module
    is local and the status of the path looked up is that of a regular file
    with a modification time, both resolve with the same banner, after the
    same host calls. *)
Theorem Previous_version_agrees U (r : Previous.Runtime)
  (verData : option VersionOptions.t) (q : jsstring) (info : FileInfo) (d : Date) :
  isLocal (mainModule (Previous.host r)) = true ->
  lookupPath (Previous.host r) (mainModule (Previous.host r)) q ->
  lstat (Previous.host r) q = inl info ->
  Previous.isFile r q = true -> mtime info = Some d ->
  Eff.result (Previous.version U r verData) =
    outcome (version U (Previous.host r) verData) /\
  hostCalls (Eff.effects (Previous.version U r verData)) =
    trace (version U (Previous.host r) verData).
Proof.
  intros Hloc Hq Hstat Hfile Hm.
  destruct (isLocal_unfold _ Hloc) as [Hlen _].
  rewrite Previous_version_unfold, version_resolves,
    (Previous_getFileModTime_lookup r _ q Hlen Hq).
  unfold modTimeText.
  rewrite (getFileModTime_local (Previous.host r) _ q Hloc Hq).
  rewrite Hstat, Hfile, Hm. cbn [Eff.result Eff.effects outcome trace fst snd].
  split; [reflexivity|].
  destruct (startsWith (mainModule (Previous.host r)) (js "file:")); reflexivity.
Qed.

Lemma Previous_version_agrees_witness :
  Eff.result (Previous.version Sample.asciiOnly SampleTest.regular None) =
    outcome (version Sample.asciiOnly Sample.linuxHost None) /\
  hostCalls (Eff.effects (Previous.version Sample.asciiOnly SampleTest.regular None)) =
    trace (version Sample.asciiOnly Sample.linuxHost None).
Proof.
  apply (Previous_version_agrees Sample.asciiOnly SampleTest.regular None
           (js "/home/runner/version/version_test.ts")
           (mkFileInfo (Some 1756127897000%Z)) 1756127897000%Z
           eq_refl eq_refl eq_refl eq_refl eq_refl).
Defined.

(** X15: the previous revision answers for regular files only: when the
    status of the main module is not that of a regular file (a directory, a
    symbolic link), or carries no modification time, the modification line of
    its banner reads "UNKNOWN"; the current revision does not ask whether the
    path is a regular file, and shows the date whenever the status has one. *)
Theorem Previous_version_unknown U (r : Previous.Runtime)
  (verData : option VersionOptions.t) (q : jsstring) (info : FileInfo) :
  isLocal (mainModule (Previous.host r)) = true ->
  lookupPath (Previous.host r) (mainModule (Previous.host r)) q ->
  lstat (Previous.host r) q = inl info ->
  Previous.isFile r q = false \/ mtime info = None ->
  exists text text',
    Eff.result (Previous.version U r verData) = Resolved text /\
    includes text (js " Last modified on: UNKNOWN" ++ nl) = true /\
    outcome (version U (Previous.host r) verData) = Resolved text' /\
    includes text'
      (js " Last modified on: " ++
       match mtime info with
       | Some d => DateTime.toUTCString d
       | None => js "UNKNOWN no file modification time available."
       end ++ nl) = true.
Proof.
  intros Hloc Hq Hstat Hcase.
  destruct (isLocal_unfold _ Hloc) as [Hlen _].
  rewrite Previous_version_unfold, version_resolves,
    (Previous_getFileModTime_lookup r _ q Hlen Hq).
  unfold modTimeText.
  rewrite (getFileModTime_local (Previous.host r) _ q Hloc Hq).
  rewrite Hstat. cbn [Eff.result outcome snd].
  do 2 eexists. split; [reflexivity|].
  split; [|split; [reflexivity | apply template_modification_line]].
  assert (Hnone : (if Previous.isFile r q
                   then option_map DateTime.toUTCString (mtime info)
                   else None) = None).
  { destruct Hcase as [-> | ->]; [reflexivity|].
    destruct (Previous.isFile r q); reflexivity. }
  rewrite Hnone.
  apply (template_modification_line U (Previous.host r) _ (js "UNKNOWN")).
Qed.

Lemma Previous_version_unknown_witness :
  exists text text',
    Eff.result (Previous.version Sample.asciiOnly SampleTest.directory None) =
      Resolved text /\
    includes text (js " Last modified on: UNKNOWN" ++ nl) = true /\
    outcome (version Sample.asciiOnly (Previous.host SampleTest.directory) None) =
      Resolved text' /\
    includes text' (js " Last modified on: Mon, 25 Aug 2025 13:18:17 GMT" ++ nl) = true.
Proof.
  apply (Previous_version_unknown Sample.asciiOnly SampleTest.directory None
           (js "/home/runner/version") (mkFileInfo (Some 1756127897000%Z))
           eq_refl eq_refl eq_refl (or_introl eq_refl)).
Defined.

(** ** The default test of [version_test.ts] *)

Lemma jsstring_eqb_neq (a b : jsstring) : a <> b -> jsstring_eqb a b = false.
Proof.
  intros Hne. destruct (jsstring_eqb a b) eqn:E; [|reflexivity].
  apply jsstring_eqb_eq in E. contradiction.
Qed.

(** X16: the default test passes on an x86_64 Linux machine and on an aarch64
    macOS machine, when the main module is [version_test.ts] and the lookup
    of the relative path [./version_test.ts] resolves with the text the
    lookup of the main module resolves with. *)
Theorem test_version_default_passes U (h : Host) (modTime : jsstring) :
  (build_arch h = js "x86_64" /\ build_os h = js "linux") \/
  (build_arch h = js "aarch64" /\ build_os h = js "darwin") ->
  basename h (mainModule h) = js "version_test.ts" ->
  outcome (getFileModTime h (js "./version_test.ts")) = Resolved modTime ->
  outcome (getFileModTime h (mainModule h)) = Resolved modTime ->
  test_version_default U h = true.
Proof.
  intros [[Harch Hos]|[Harch Hos]] Hbase Hrel Hmain; unfold test_version_default;
    rewrite Hrel.
  - rewrite (version_test_default U h modTime Hos Harch Hbase Hmain), Harch.
    cbn [jsstring_eqb js map list_ascii_of_string]. apply jsstring_eqb_refl.
  - rewrite (version_test_default_aarch64 U h modTime Hos Harch Hbase Hmain), Harch.
    cbn [jsstring_eqb js map list_ascii_of_string]. apply jsstring_eqb_refl.
Qed.

Lemma test_version_default_passes_witness :
  test_version_default Sample.asciiOnly SampleTest.runner = true.
Proof.
  apply (test_version_default_passes Sample.asciiOnly SampleTest.runner
           (js "Mon, 25 Aug 2025 13:18:17 GMT")
           (or_introl (conj eq_refl eq_refl)) eq_refl eq_refl eq_refl).
Defined.

Lemma template_not_empty U h version fileModTime crYear copyrightName licenseUrl :
  jsstring_eqb (template U h version fileModTime crYear copyrightName licenseUrl)
               (js "") = false.
Proof. reflexivity. Qed.

(** X17: on a machine whose architecture is neither aarch64 nor x86_64 the
    default test fails: it expects the empty string, and the banner is never
    empty. *)
Theorem test_version_default_other_arch U (h : Host) :
  build_arch h <> js "aarch64" -> build_arch h <> js "x86_64" ->
  test_version_default U h = false.
Proof.
  intros Harm Hx86. unfold test_version_default.
  destruct (outcome (getFileModTime h (js "./version_test.ts"))); [|reflexivity].
  rewrite (jsstring_eqb_neq _ _ Harm), (jsstring_eqb_neq _ _ Hx86), version_resolves.
  cbn [outcome snd]. apply template_not_empty.
Qed.

Lemma test_version_default_other_arch_witness :
  test_version_default Sample.asciiOnly SampleTest.riscv = false.
Proof.
  apply (test_version_default_other_arch Sample.asciiOnly SampleTest.riscv);
    intros H; vm_compute in H; discriminate H.
Defined.

Lemma app_mid_neq (a b m t : jsstring) (x y : codeunit) :
  x <> y -> a ++ (x :: m) ++ t <> b ++ (y :: m) ++ t.
Proof.
  intros Hne H.
  change (a ++ ([x] ++ m) ++ t = b ++ ([y] ++ m) ++ t) in H.
  rewrite <- !app_assoc in H. rewrite !(app_assoc _ [_] (m ++ t)) in H.
  apply app_inv_tail in H. apply app_inj_tail in H as [_ H]. contradiction.
Qed.

(** X18: the default test ties the architecture to one system: on aarch64
    Linux it fails, as it expects "Darwin" where the banner says "Linux", and
    on x86_64 macOS it fails, as it expects "Linux" where the banner says
    "Darwin". *)
Theorem test_version_default_other_system U (h : Host) :
  (build_arch h = js "aarch64" /\ build_os h = js "linux") \/
  (build_arch h = js "x86_64" /\ build_os h = js "darwin") ->
  test_version_default U h = false.
Proof.
  intros Hsys. unfold test_version_default.
  destruct (outcome (getFileModTime h (js "./version_test.ts"))) as [t|];
    [|reflexivity].
  rewrite version_resolves. cbn [outcome snd].
  destruct Hsys as [[Harch Hos]|[Harch Hos]]; rewrite Harch;
    cbn [jsstring_eqb js map list_ascii_of_string]; cbv beta iota;
    apply jsstring_eqb_neq; intros Heq;
    unfold template, banner_lines, join, expected_default_aarch64,
      expected_default_x86_64, withDefault, orEmpty in Heq;
    rewrite Hos, Harch in Heq; rewrite <- !app_assoc in Heq.
  - change (ToString (toTitleCaseFirst U (VString (js "linux"))))
      with (js "Linux") in Heq.
    eapply (app_mid_neq
             (nl ++ js " Application '" ++ basename h (mainModule h) ++
              js "' is version '0.0.1 [DEFAULT]'." ++ nl ++
              js " Last modified on: " ++ modTimeText h ++ nl ++
              js " Running Deno version '" ++ deno_version h ++ js "' on 'Linu")
             (nl ++ js " Application 'version_test.ts' is version '0.0.1 [DEFAULT]'." ++
              nl ++ js " Last modified on: " ++ t ++ nl ++
              js " Running Deno version '" ++ deno_version h ++ js "' on 'Darwi")
             (js " [aarch64 with ")
             (decimal (hardwareConcurrency h) ++ js " CPU cores]'." ++ nl ++
              js " Copyright (c) 2021 [DEFAULT] Deno Dinosaur <deno@deno.land> [DEFAULT]." ++
              nl ++ nl ++ js " For licenses and further information visit:" ++
              nl ++ js "   - https://github.com/<username_here>/ [DEFAULT]" ++
              nl ++ js "   - https://deno.land/" ++ nl ++ js "   ")
             120%N 110%N); [discriminate|].
    rewrite <- !app_assoc. exact Heq.
  - change (ToString (toTitleCaseFirst U (VString (js "darwin"))))
      with (js "Darwin") in Heq.
    eapply (app_mid_neq
             (nl ++ js " Application '" ++ basename h (mainModule h) ++
              js "' is version '0.0.1 [DEFAULT]'." ++ nl ++
              js " Last modified on: " ++ modTimeText h ++ nl ++
              js " Running Deno version '" ++ deno_version h ++ js "' on 'Darwi")
             (nl ++ js " Application 'version_test.ts' is version '0.0.1 [DEFAULT]'." ++
              nl ++ js " Last modified on: " ++ t ++ nl ++
              js " Running Deno version '" ++ deno_version h ++ js "' on 'Linu")
             (js " [x86_64 with ")
             (decimal (hardwareConcurrency h) ++ js " CPU cores]'." ++ nl ++
              js " Copyright (c) 2021 [DEFAULT] Deno Dinosaur <deno@deno.land> [DEFAULT]." ++
              nl ++ nl ++ js " For licenses and further information visit:" ++
              nl ++ js "   - https://github.com/<username_here>/ [DEFAULT]" ++
              nl ++ js "   - https://deno.land/" ++ nl ++ js "   ")
             110%N 120%N); [discriminate|].
    rewrite <- !app_assoc. exact Heq.
Qed.

Lemma test_version_default_other_system_witness :
  test_version_default Sample.asciiOnly SampleTest.armLinux = false.
Proof.
  apply (test_version_default_other_system Sample.asciiOnly SampleTest.armLinux
           (or_introl (conj eq_refl eq_refl))).
Defined.

(** ** The range of the RFC 1123 shape *)

(** The bound on the year for the RFC 1123 shape of a resolved modification
    time is needed: the first instant of the year 10000 is formatted with a year of five digits,
    which is not the RFC 1123 shape; the last instant of the year 9999 and
    the first of the year 0 are. *)
Example toUTCString_year_range :
  DateTime.toUTCString 253402300800000%Z = js "Sat, 01 Jan 10000 00:00:00 GMT" /\
  isRFC1123Date (DateTime.toUTCString 253402300800000%Z) = false /\
  DateTime.toUTCString 253402300799999%Z = js "Fri, 31 Dec 9999 23:59:59 GMT" /\
  isRFC1123Date (DateTime.toUTCString 253402300799999%Z) = true /\
  DateTime.toUTCString (-62167219200000)%Z = js "Sat, 01 Jan 0000 00:00:00 GMT" /\
  isRFC1123Date (DateTime.toUTCString (-62167219200000)%Z) = true /\
  isRFC1123Date (DateTime.toUTCString (-62167219200001)%Z) = false.
Proof. repeat split; vm_compute; reflexivity. Qed.
